(** * Airtable proxy: record matching, flagging and reconciliation

    A shallow embedding of [database/airtable_connect.py] (class
    [GetAirTables]) and of the authentication dependency of [main.py].

    - Python values are an inductive type with Python's [==], truthiness,
      [in] and [+] written out.
    - Exceptions are an error monad; the methods that write to the remote
      service or print run in a writer-over-error monad whose trace lists
      every remote call and every printed line.
    - The remote service (the [airtable] client and [requests]) is a record
      of answer functions: what each call replies is an input of the model.
    - A pandas DataFrame is a list of column names with row-major cells;
      the operations used by the code act on object-typed columns. *)

From Stdlib Require Import ZArith String Ascii List Bool Lia.
From stdpp Require Import base option list strings pretty gmap.

Set Warnings "-register-all".

Open Scope string_scope.
Open Scope list_scope.

(** ** Python values, operators and exceptions *)

Module Py.

(** JSON values as they arrive from the service.  [VNone] also stands for
    the missing cell of a DataFrame. *)
Inductive value : Type :=
| VNone
| VBool (b : bool)
| VNum (n : Z)
| VStr (s : string)
| VList (l : list value).

Inductive exn : Type :=
| KeyError
| TypeError
| RemoteError.

Inductive result (A : Type) : Type :=
| Ok (a : A)
| Raise (e : exn).
Arguments Ok {A} a.
Arguments Raise {A} e.

Definition rbind {A B} (m : result A) (k : A -> result B) : result B :=
  match m with
  | Ok a => k a
  | Raise e => Raise e
  end.

Fixpoint rmap {A B} (f : A -> result B) (l : list A) : result (list B) :=
  match l with
  | [] => Ok []
  | x :: l' => rbind (f x) (fun y => rbind (rmap f l') (fun ys => Ok (y :: ys)))
  end.

(** [a == b].  A bool compares equal to the number it denotes. *)
Fixpoint py_eq (a b : value) : bool :=
  match a, b with
  | VNone, VNone => true
  | VBool x, VBool y => Bool.eqb x y
  | VBool x, VNum n => Z.eqb (Z.b2z x) n
  | VNum n, VBool x => Z.eqb n (Z.b2z x)
  | VNum m, VNum n => Z.eqb m n
  | VStr s, VStr t => String.eqb s t
  | VList l, VList k =>
      (fix go (l k : list value) : bool :=
         match l, k with
         | [], [] => true
         | x :: l', y :: k' => py_eq x y && go l' k'
         | _, _ => false
         end) l k
  | _, _ => false
  end.

(** [bool(v)] *)
Definition truthy (v : value) : bool :=
  match v with
  | VNone => false
  | VBool b => b
  | VNum n => negb (Z.eqb n 0)
  | VStr s => negb (String.eqb s "")
  | VList l => match l with [] => false | _ => true end
  end.

(** [p in s] on two strings: [p] occurs in [s]. *)
Fixpoint str_contains (p s : string) : bool :=
  String.prefix p s ||
  match s with
  | EmptyString => false
  | String _ s' => str_contains p s'
  end.

(** [x in c] for a string [x]: substring test on a string, membership on a
    list, [TypeError] on anything that is not a container. *)
Definition py_in (x : string) (c : value) : result bool :=
  match c with
  | VStr s => Ok (str_contains x s)
  | VList l => Ok (existsb (py_eq (VStr x)) l)
  | VNone | VBool _ | VNum _ => Raise TypeError
  end.

(** [a + b] *)
Definition py_add (a b : value) : result value :=
  match a, b with
  | VStr s, VStr t => Ok (VStr (s +:+ t))
  | VList l, VList k => Ok (VList (l ++ k)%list)
  | VNum m, VNum n => Ok (VNum (m + n))
  | VBool x, VNum n => Ok (VNum (Z.b2z x + n))
  | VNum n, VBool x => Ok (VNum (n + Z.b2z x))
  | VBool x, VBool y => Ok (VNum (Z.b2z x + Z.b2z y))
  | _, _ => Raise TypeError
  end.

(** [d.get(k)] and [d.get(k, dflt)] on a dict with string keys. *)
Definition dict_get (d : gmap string value) (k : string) : value :=
  default VNone (d !! k).

Definition dict_get_default (d : gmap string value) (k : string) (dflt : value) : value :=
  default dflt (d !! k).

(** [d[k]] *)
Definition dict_item (d : gmap string value) (k : string) : result value :=
  match d !! k with
  | Some v => Ok v
  | None => Raise KeyError
  end.

(** [d1 == d2]: the same keys, with equal values. *)
Definition dict_eq (d1 d2 : gmap string value) : bool :=
  forallb (fun kv => match d2 !! kv.1 with
                     | Some w => py_eq kv.2 w
                     | None => false
                     end) (map_to_list d1)
  && forallb (fun kv => bool_decide (is_Some (d1 !! kv.1))) (map_to_list d2).

End Py.
Import Py.

#[global] Instance result_ret : MRet result := fun A a => Ok a.
#[global] Instance result_bind : MBind result := fun A B k m => rbind m k.

(** ** The remote service *)

Module Remote.

(** One Airtable record: [{'id': ..., 'fields': {...}}].  The code reads
    ['fields'] with [record.get('fields', {})] in two places, so a record
    without that key is representable.  The client parses every object into
    an ordered dict: [rec_keys] is the order in which the keys of ['fields']
    arrived.  The keys of the record itself arrive in the service's fixed
    order, and its creation time is determined by its identifier. *)
Record record : Type := {
  rec_id : string;
  rec_fields : option (gmap string value);
  rec_keys : list string
}.

(** [r1 == r2] on two record dicts.  Two ordered dicts are equal when they
    hold equal values under the same keys in the same order. *)
Definition record_eq (r1 r2 : record) : bool :=
  String.eqb (rec_id r1) (rec_id r2) &&
  match rec_fields r1, rec_fields r2 with
  | Some f1, Some f2 => dict_eq f1 f2 && bool_decide (rec_keys r1 = rec_keys r2)
  | None, None => true
  | _, _ => false
  end.

(** What a call of the [airtable] client gives back: the parsed body of a
    successful response, a body that reports an error (an ['error'] entry
    and none of the expected keys), or an exception. *)
Inductive api_reply (A : Type) : Type :=
| Reply (a : A)
| ErrorReply (code : Z)
| Raises.
Arguments Reply {A} a.
Arguments ErrorReply {A} code.
Arguments Raises {A}.

(** What [requests.get] / [requests.post] gives back: a response with its
    status code and body, or an exception of the transport. *)
Inductive http_reply (A : Type) : Type :=
| Response (status_code : Z) (body : A)
| ConnectionError.
Arguments Response {A} status_code body.
Arguments ConnectionError {A}.

(** The body of the schema endpoint: for every table its id and the names
    of its fields, in declared order. *)
Record table_schema : Type := {
  ts_id : string;
  ts_fields : list string
}.

(** The object [self]: the base id and the answers of the service. *)
Record GetAirTables : Type := {
  BASE_ID : string;
  (* self.at.get(table_id, fields=...) *)
  at_get : string -> list string -> api_reply (list record);
  (* the records produced by self.at.iterate(table_id) *)
  at_iterate : string -> result (list record);
  (* self.at.update(table_id, record_id, data): the 'fields' of the answer *)
  at_update : string -> string -> gmap string value -> api_reply (gmap string value);
  (* requests.get on the schema url of a base *)
  requests_get_schema : string -> http_reply (list table_schema);
  (* requests.post on the comments url of (table_id, record_id) with a text *)
  requests_post_comment : string -> string -> string -> http_reply string
}.

(** The lines the code prints. *)
Inductive log_line : Type :=
| ErrorInGetRecordId (e : exn)
| UpdateDone (name : value)
| RecordNotFound (query : string * string)
| ErrorCheckingUpdate (e : exn)
| Commented
| ErrorCreatingComment (record_id : string) (status_code : Z) (text : string).

(** What a method does besides returning: remote calls, in order, and
    printed lines.  [AtUpdate] and [PostComment] record whether the service
    accepted the write. *)
Inductive event : Type :=
| AtGet (table_id : string) (fields : list string)
| AtUpdate (table_id record_id : string) (data : gmap string value) (accepted : bool)
| PostComment (table_id record_id text : string) (accepted : bool)
| Print (line : log_line).

(** A computation that may raise, with the trace of what it did. *)
Record io (A : Type) : Type := IO {
  outcome : result A;
  trace : list event
}.
Arguments IO {A} outcome trace.
Arguments outcome {A} _.
Arguments trace {A} _.

Definition io_ret {A} (a : A) : io A := IO (Ok a) [].

Definition io_bind {A B} (m : io A) (k : A -> io B) : io B :=
  match outcome m with
  | Ok a => IO (outcome (k a)) (trace m ++ trace (k a))
  | Raise e => IO (Raise e) (trace m)
  end.

Definition emit (e : event) : io unit := IO (Ok tt) [e].

Definition lift {A} (r : result A) : io A := IO r [].

(** [try: m except Exception as e: h e] *)
Definition try_except {A} (m : io A) (h : exn -> io A) : io A :=
  match outcome m with
  | Ok a => m
  | Raise e => IO (outcome (h e)) (trace m ++ trace (h e))
  end.

(** [reply['records']] and the like: the payload of a successful answer;
    an error body lacks the key, an exception propagates. *)
Definition payload {A} (r : api_reply A) : result A :=
  match r with
  | Reply a => Ok a
  | ErrorReply _ => Raise KeyError
  | Raises => Raise RemoteError
  end.

Definition accepted_reply {A} (r : api_reply A) : bool :=
  match r with
  | Reply _ => true
  | _ => false
  end.

(** The table as the service holds it after the accepted writes of a trace:
    an accepted update of a record sets the given fields on it (a field the
    record did not have comes after the others). *)
Definition apply_update (record_id : string) (data : gmap string value) (r : record) : record :=
  if String.eqb (rec_id r) record_id
  then {| rec_id := rec_id r;
          rec_fields := Some (data ∪ default ∅ (rec_fields r));
          rec_keys :=
            rec_keys r
            ++ List.filter (fun k => negb (existsb (String.eqb k) (rec_keys r)))
                 (map fst (map_to_list data)) |}
  else r.

Fixpoint table_after (table_id : string) (trace : list event) (tbl : list record) : list record :=
  match trace with
  | [] => tbl
  | AtUpdate t record_id data true :: trace' =>
      table_after table_id trace'
        (if String.eqb t table_id then map (apply_update record_id data) tbl else tbl)
  | _ :: trace' => table_after table_id trace' tbl
  end.

Definition is_update (e : event) : bool :=
  match e with AtUpdate _ _ _ _ => true | _ => false end.

Definition is_comment (e : event) : bool :=
  match e with PostComment _ _ _ _ => true | _ => false end.

Definition is_write (e : event) : bool := is_update e || is_comment e.

End Remote.
Import Remote.

#[global] Instance io_mret : MRet io := @io_ret.
#[global] Instance io_mbind : MBind io := fun A B k m => io_bind m k.

(** ** The methods of [GetAirTables] that match, flag and comment *)

Section Methods.

(** [unicodedata.normalize('NFKC', _)], a function of the Python library. *)
Variable nfkc : string -> string.

(** [unicodedata.normalize('NFKC', v) if v else None]: a falsy value gives
    [None], a non-empty string is normalised, and any other truthy value
    makes [normalize] raise a [TypeError]. *)
Definition normalize_if (v : value) : result value :=
  if truthy v then
    match v with
    | VStr s => Ok (VStr (nfkc s))
    | _ => Raise TypeError
    end
  else Ok VNone.

(** The body of the loop of [get_record_id] for one record: [Ok true] when
    the [return record_id] is reached.  [and] evaluates the containment test
    only when the names are equal. *)
Definition record_id_hit (id_column name_column : string) (query : string * string)
    (record : record) : result bool :=
  let '(client_full_name, client_id) := query in
  let fields := default ∅ (rec_fields record) in
  name ← normalize_if (dict_get fields name_column);
  let client_ids := dict_get fields id_column in
  if py_eq name (VStr client_full_name) then py_in client_id client_ids else Ok false.

(** The [for] loop of [get_record_id]; falling off its end returns [None]. *)
Fixpoint scan_record_id (id_column name_column : string) (query : string * string)
    (records : list record) : result (option string) :=
  match records with
  | [] => Ok None
  | record :: rest =>
      hit ← record_id_hit id_column name_column query record;
      if hit : bool then Ok (Some (rec_id record))
      else scan_record_id id_column name_column query rest
  end.

Definition get_record_id (self : GetAirTables) (table_id id_column name_column : string)
    (query : string * string) : io (option string) :=
  try_except
    (_ ← emit (AtGet table_id [name_column; id_column]);
     records ← lift (payload (at_get self table_id [name_column; id_column]));
     lift (scan_record_id id_column name_column query records))
    (fun e => _ ← emit (Print (ErrorInGetRecordId e)); mret None).

(** The test of the loop of [verify_and_update] for one record. *)
Definition update_hit (name_column id_column : string) (query : string * string)
    (record : record) : result bool :=
  let '(client_full_name, client_id) := query in
  let fields := default ∅ (rec_fields record) in
  let name := dict_get fields name_column in
  let id := dict_get fields id_column in
  name ← normalize_if name;
  id ← normalize_if id;
  Ok (py_eq name (VStr client_full_name) && py_eq id (VStr client_id)).

(** The [for] loop of [verify_and_update] with the two lines after it. *)
Fixpoint scan_and_update (self : GetAirTables)
    (table_id name_column id_column update_column : string)
    (query : string * string) (records : list record) : io bool :=
  match records with
  | [] => _ ← emit (Print (RecordNotFound query)); mret false
  | record :: rest =>
      hit ← lift (update_hit name_column id_column query record);
      if hit : bool then
        let fields := default ∅ (rec_fields record) in
        _ ← (if negb (truthy (dict_get_default fields update_column (VBool false))) then
               let data : gmap string value := {[ update_column := VBool true ]} in
               let reply := at_update self table_id (rec_id record) data in
               _ ← emit (AtUpdate table_id (rec_id record) data (accepted_reply reply));
               response_fields ← lift (payload reply);
               name ← lift (dict_item response_fields name_column);
               emit (Print (UpdateDone name))
             else mret tt);
        mret true
      else scan_and_update self table_id name_column id_column update_column query rest
  end.

Definition verify_and_update (self : GetAirTables)
    (table_id name_column id_column update_column : string)
    (query : string * string) : io bool :=
  try_except
    (_ ← emit (AtGet table_id [name_column; id_column; update_column]);
     records ← lift (payload (at_get self table_id [name_column; id_column; update_column]));
     scan_and_update self table_id name_column id_column update_column query records)
    (fun e => _ ← emit (Print (ErrorCheckingUpdate e)); mret false).

End Methods.

(** [create_comment] has no handler: what [requests.post] raises leaves the
    method. *)
Definition create_comment (self : GetAirTables) (table_id record_id comment : string)
    : io bool :=
  let reply := requests_post_comment self table_id record_id comment in
  match reply with
  | ConnectionError =>
      _ ← emit (PostComment table_id record_id comment false);
      lift (Raise RemoteError)
  | Response status_code text =>
      _ ← emit (PostComment table_id record_id comment (Z.eqb status_code 200));
      if Z.eqb status_code 200 then
        _ ← emit (Print Commented); mret true
      else
        _ ← emit (Print (ErrorCreatingComment record_id status_code text)); mret false
  end.

(** ** The pandas operations the code uses *)

Module Frame.

(** A frame: its column names in order and, for every row, one cell per
    column.  A missing cell (NaN) is [VNone]. *)
Record DataFrame : Type := {
  columns : list string;
  rows : list (list value)
}.

Fixpoint index_of (c : string) (cols : list string) : option nat :=
  match cols with
  | [] => None
  | c' :: cols' => if String.eqb c' c then Some 0 else S <$> index_of c cols'
  end.

(** [pd.DataFrame(data=dicts).reindex(columns=cols)]: the intermediate
    frame has the keys of the dicts as columns; reindexing keeps the cell of
    every key named in [cols] and leaves the others missing.  Cells are kept
    as the values they are: the floats pandas makes of the integers of a
    column with a missing cell are not represented. *)
Definition frame_reindexed (dicts : list (gmap string value)) (cols : list string)
    : DataFrame :=
  {| columns := cols;
     rows := map (fun d => map (dict_get d) cols) dicts |}.

(** [df[c]] *)
Definition getitem (df : DataFrame) (c : string) : result (list value) :=
  match index_of c (columns df) with
  | Some i => Ok (map (fun row => nth i row VNone) (rows df))
  | None => Raise KeyError
  end.

(** [df[c] = series]: in place when the column exists, else a new last
    column. *)
Definition setitem (df : DataFrame) (c : string) (series : list value) : DataFrame :=
  match index_of c (columns df) with
  | Some i =>
      {| columns := columns df;
         rows := zip_with (fun row v => <[i := v]> row) (rows df) series |}
  | None =>
      {| columns := columns df ++ [c];
         rows := zip_with (fun row v => row ++ [v]) (rows df) series |}
  end.

Definition isna (v : value) : bool :=
  match v with
  | VNone => true
  | _ => false
  end.

(** [+] on an object column is applied where both operands are present and
    gives a missing cell elsewhere. *)
Definition na_add (a b : value) : result value :=
  if isna a || isna b then Ok VNone else py_add a b.

(** A column that has rows and not one value is a float column, not an
    object column. *)
Definition float_column (series : list value) : bool :=
  match series with
  | [] => false
  | _ => forallb isna series
  end.

Definition is_number (v : value) : bool :=
  match v with
  | VNum _ | VBool _ => true
  | _ => false
  end.

(** [series + x]: element by element on an object column; a float column
    takes only a number. *)
Definition series_add_scalar (series : list value) (x : value) : result (list value) :=
  if float_column series && negb (is_number x) then Raise TypeError
  else rmap (fun a => na_add a x) series.

(** [series1 + series2] *)
Definition series_add (s1 s2 : list value) : result (list value) :=
  rmap (fun ab => na_add ab.1 ab.2) (zip s1 s2).

(** [pd.merge(left, right, on=key, how='left')]: every row of [left], in
    order, once per row of [right] with an equal key (in the order of
    [right]), or once with missing cells when there is none.  Columns other
    than the key that both frames have get the suffixes [_x] and [_y]. *)
Definition merge_left (left right : DataFrame) (key : string) : result DataFrame :=
  i ← from_option Ok (Raise KeyError) (index_of key (columns left));
  j ← from_option Ok (Raise KeyError) (index_of key (columns right));
  let overlap (c : string) : bool :=
    negb (String.eqb c key)
    && existsb (String.eqb c) (columns left) && existsb (String.eqb c) (columns right) in
  let left_names := map (fun c => if overlap c then c +:+ "_x" else c) (columns left) in
  let right_names :=
    map (fun c => if overlap c then c +:+ "_y" else c) (delete j (columns right)) in
  let joined (l : list value) : list (list value) :=
    match List.filter (fun r => py_eq (nth i l VNone) (nth j r VNone)) (rows right) with
    | [] => [l ++ replicate (length right_names) VNone]
    | partners => map (fun r => l ++ delete j r) partners
    end in
  Ok {| columns := left_names ++ right_names;
        rows := concat (map joined (rows left)) |}.

(** [row[c]] inside [df.apply(..., axis=1)] *)
Definition row_item (cols : list string) (row : list value) (c : string) : result value :=
  match index_of c cols with
  | Some i => Ok (nth i row VNone)
  | None => Raise KeyError
  end.

(** [df.apply(f, axis=1)] *)
Definition apply_rows (df : DataFrame) (f : (string -> result value) -> result value)
    : result (list value) :=
  rmap (fun row => f (row_item (columns df) row)) (rows df).

Fixpoint select {A} (mask : list bool) (l : list A) : list A :=
  match mask, l with
  | b :: mask', x :: l' => if b then x :: select mask' l' else select mask' l'
  | _, _ => []
  end.

(** [df.drop(columns=[c for c in df.columns if p c])] *)
Definition drop_columns (p : string -> bool) (df : DataFrame) : DataFrame :=
  let keep := map (fun c => negb (p c)) (columns df) in
  {| columns := select keep (columns df);
     rows := map (select keep) (rows df) |}.

End Frame.
Import Frame.

(** ** The methods of [GetAirTables] that read tables *)

Definition get_base_schema (self : GetAirTables) (base_id : string)
    : result (list table_schema) :=
  match requests_get_schema self base_id with
  | Response status_code body =>
      if Z.eqb status_code 200 then Ok body else Raise RemoteError
  | ConnectionError => Raise RemoteError
  end.

(** The loop of [get_table]: a record of the iteration is appended unless an
    equal record is already in the list. *)
Fixpoint append_new (records iterated : list record) : list record :=
  match iterated with
  | [] => records
  | r :: rest =>
      append_new (if existsb (record_eq r) records then records else records ++ [r]) rest
  end.

(** The field names the schema declares for a table; no columns when the
    schema does not list the table. *)
Fixpoint all_columns_of (tables : list table_schema) (table_id : string) : list string :=
  match tables with
  | [] => []
  | table :: tables' =>
      if String.eqb (ts_id table) table_id then ts_fields table
      else all_columns_of tables' table_id
  end.

(** [record['fields']] *)
Definition fields_item (r : record) : result (gmap string value) :=
  from_option Ok (Raise KeyError) (rec_fields r).

(** The first statements of [get_table]: the dict [data] after the loop.
    [data['records']] is only evaluated when the iteration produces a
    record. *)
Definition collect_records (self : GetAirTables) (table_id : string)
    : result (api_reply (list record)) :=
  match at_get self table_id [] with
  | Raises => Raise RemoteError
  | data =>
      iterated ← at_iterate self table_id;
      match iterated with
      | [] => Ok data
      | _ => records ← payload data; Ok (Reply (append_new records iterated))
      end
  end.

Definition get_table (self : GetAirTables) (table_id : string) : result DataFrame :=
  data ← collect_records self table_id;
  base_schema ← get_base_schema self (BASE_ID self);
  let all_columns := all_columns_of base_schema table_id in
  records ← payload data;
  dicts ← rmap fields_item records;
  Ok (frame_reindexed dicts all_columns).

(** [x[0] if isinstance(x, list) and len(x) == 1 else x] *)
Definition unwrap_single (x : value) : value :=
  match x with
  | VList [y] => y
  | _ => x
  end.

(** [df[id_column] + ' | ' + df[name_column]] *)
Definition index_series (df : DataFrame) (id_column name_column : string)
    : result (list value) :=
  ids ← getitem df id_column;
  ids_sep ← series_add_scalar ids (VStr " | ");
  names ← getitem df name_column;
  series_add ids_sep names.

(** [row[col_x] if row[col_x] == row[col_y] else None] *)
Definition keep_if_equal (col : string) (row : string -> result value) : result value :=
  x ← row (col +:+ "_x");
  y ← row (col +:+ "_y");
  if py_eq x y then row (col +:+ "_x") else Ok VNone.

Definition get_client_database (self : GetAirTables)
    (main_table_id checking_table_id id_column name_column : string) : result DataFrame :=
  clients_data ← get_table self main_table_id;
  clients_checking ← get_table self checking_table_id;
  names ← getitem clients_checking name_column;
  let clients_checking := setitem clients_checking name_column (map unwrap_single names) in
  ids ← getitem clients_checking id_column;
  let clients_checking := setitem clients_checking id_column (map unwrap_single ids) in
  index ← index_series clients_data id_column name_column;
  let clients_data := setitem clients_data "index" index in
  index ← index_series clients_checking id_column name_column;
  let clients_checking := setitem clients_checking "index" index in
  clients ← merge_left clients_data clients_checking "index";
  kept ← apply_rows clients (keep_if_equal name_column);
  let clients := setitem clients name_column kept in
  kept ← apply_rows clients (keep_if_equal id_column);
  let clients := setitem clients id_column kept in
  Ok (drop_columns (fun col => str_contains "_x" col || str_contains "_y" col) clients).

(** ** The authentication dependency of the routes *)

Module Api.

(** What a dependency or a handler does: return a value or raise
    [HTTPException(status_code, detail)]. *)
Inductive handled (A : Type) : Type :=
| Returned (a : A)
| HTTPException (status_code : Z) (detail : string).
Arguments Returned {A} a.
Arguments HTTPException {A} status_code detail.

(** [APIKeyHeader(name="X-API-Key", auto_error=False)]: the scheme hands the
    dependency the value of the header, and [None] when the request has no
    such header or an empty one. *)
Definition api_key_header (x_api_key : option string) : option string :=
  match x_api_key with
  | Some key => if String.eqb key "" then None else Some key
  | None => None
  end.

Definition get_api_key (api_key_header : option string) : handled string :=
  match api_key_header with
  | None => HTTPException 400 "X-API-Key header invalid"
  | Some key =>
      if negb (String.eqb key "valid_api_key")
      then HTTPException 403 "Could not validate credentials"
      else Returned key
  end.

(** The answer of [GET /protected]: the message of the returned dict. *)
Definition protected_route (user_id : string) : string :=
  "Access granted for user " +:+ user_id.

Record http_response : Type := {
  status : Z;
  content : string
}.

(** A route with [Depends(get_api_key)]: an [HTTPException] of the
    dependency is answered with its status code and detail, and the value
    the handler returns is answered with status 200. *)
Definition serve (handler : string -> string) (x_api_key : option string) : http_response :=
  match get_api_key (api_key_header x_api_key) with
  | HTTPException status_code detail => {| status := status_code; content := detail |}
  | Returned user_id => {| status := 200; content := handler user_id |}
  end.

Definition get_protected : option string -> http_response := serve protected_route.

End Api.
Import Api.

(** ** Credentials and construction *)

Module Credentials.

(** A computation that can only fail with [IndexError]. *)
Inductive indexed (A : Type) : Type :=
| Got (a : A)
| IndexError.
Arguments Got {A} a.
Arguments IndexError {A}.

Definition has_char (sep : ascii) (s : string) : bool :=
  existsb (Ascii.eqb sep) (list_ascii_of_string s).

(** [s.split(sep)] for a separator of one character. *)
Fixpoint split_char (sep : ascii) (s : string) : list string :=
  match s with
  | EmptyString => [EmptyString]
  | String c s' =>
      if Ascii.eqb c sep then EmptyString :: split_char sep s'
      else match split_char sep s' with
           | [] => [String c EmptyString]
           | word :: words => String c word :: words
           end
  end.

(** [s.split(sep, 1)]: the text before the first separator and, when there
    is a separator, the text after it. *)
Fixpoint split_once (sep : ascii) (s : string) : string * option string :=
  match s with
  | EmptyString => (EmptyString, None)
  | String c s' =>
      if Ascii.eqb c sep then (EmptyString, Some s')
      else let '(word, rest) := split_once sep s' in (String c word, rest)
  end.

(** [[cred.split(' ', 1) for cred in creds_str.split(',') if cred]] *)
Definition creds_list_of (creds_str : string) : list (string * option string) :=
  map (split_once " ")
    (List.filter (fun cred => negb (String.eqb cred "")) (split_char "," creds_str)).

(** [next((item[1] for item in creds_list if item[0] == key), None)]: the
    first item with the key decides; [item[1]] raises when that item has no
    second part. *)
Fixpoint next_item (key : string) (creds_list : list (string * option string))
    : indexed (option string) :=
  match creds_list with
  | [] => Got None
  | item :: rest =>
      if String.eqb item.1 key then
        match item.2 with
        | Some v => Got (Some v)
        | None => IndexError
        end
      else next_item key rest
  end.

Record credentials : Type := {
  cred_base_id : option string;
  cred_access_token : option string
}.

(** The argument is [os.environ.get('AIRTABLE_CREDS')]: [None] when the
    variable is unset. *)
Definition get_airtable_credentials (AIRTABLE_CREDS : option string) : indexed credentials :=
  let creds_str := default "" AIRTABLE_CREDS in
  let creds_list := creds_list_of creds_str in
  match next_item "base_id" creds_list with
  | IndexError => IndexError
  | Got base_id =>
      match next_item "access_token" creds_list with
      | IndexError => IndexError
      | Got access_token =>
          Got {| cred_base_id := base_id; cred_access_token := access_token |}
      end
  end.

(** [a or b] on optional strings: [a] when it is a non-empty string. *)
Definition or_else (a b : option string) : option string :=
  match a with
  | Some s => if String.eqb s "" then b else Some s
  | None => b
  end.

(** [__init__], up to the construction of the client: the pair
    [(self.BASE_ID, self.ACCESS_TOKEN)].  The credentials are read before
    the arguments are looked at. *)
Definition init (base_id access_token : option string) (AIRTABLE_CREDS : option string)
    : indexed (option string * option string) :=
  match get_airtable_credentials AIRTABLE_CREDS with
  | IndexError => IndexError
  | Got credentials =>
      Got (or_else base_id (cred_base_id credentials),
           or_else access_token (cred_access_token credentials))
  end.

End Credentials.
Import Credentials.

(** ** The update verifier and the comments of a table *)

Inductive update_status : Type :=
| Updated
| Pending.

(** The line [f"{status}: {client_id} - {client_name}"], kept as the three
    values it interpolates. *)
Record status_line : Type := {
  line_status : update_status;
  line_client_id : value;
  line_client_name : value
}.

(** [str(v)] where it needs no [repr]: not on lists. *)
Definition py_str (v : value) : option string :=
  match v with
  | VNone => Some "None"
  | VBool true => Some "True"
  | VBool false => Some "False"
  | VNum n => Some (pretty n)
  | VStr s => Some s
  | VList _ => None
  end.

Definition status_text (s : update_status) : string :=
  match s with
  | Updated => "Updated"
  | Pending => "Pending"
  end.

(** The text of the line, when both interpolated values have one. *)
Definition line_text (l : status_line) : option string :=
  client_id ← py_str (line_client_id l);
  client_name ← py_str (line_client_name l);
  Some (status_text (line_status l) +:+ ": " +:+ client_id +:+ " - " +:+ client_name).

(** [v is True] *)
Definition is_True (v : value) : bool :=
  match v with
  | VBool true => true
  | _ => false
  end.

(** The body of the loop of [verify_update_tables]. *)
Definition status_line_of (name_column id_column update_column : string) (record : record)
    : status_line :=
  let fields := default ∅ (rec_fields record) in
  let client_name := dict_get_default fields name_column (VStr "Unknown Name") in
  let client_id := dict_get_default fields id_column (VStr "ID not found") in
  let status := if is_True (dict_get fields update_column) then Updated else Pending in
  {| line_status := status; line_client_id := client_id; line_client_name := client_name |}.

(** No handler: an exception of the read leaves the method.  An error body
    has no ['records'], which [records.get('records')] turns into the empty
    answer. *)
Definition verify_update_tables (self : GetAirTables)
    (table_id name_column id_column update_column : string) : result (list status_line) :=
  match at_get self table_id [name_column; id_column; update_column] with
  | Raises => Raise RemoteError
  | ErrorReply _ => Ok []
  | Reply records => Ok (map (status_line_of name_column id_column update_column) records)
  end.

(** What [get_comments] did and produced: the records whose comments were
    requested, in order, and the rows handed to [pd.DataFrame] (the frame
    is kept as its rows; the order of its columns is not represented). *)
Record comments_run : Type := {
  requested : list string;
  comment_rows : result (list (gmap string value))
}.

(** [c['record_id'] = record['id']] *)
Definition stamp (record_id : string) (c : gmap string value) : gmap string value :=
  <["record_id" := VStr record_id]> c.

(** The [for] loop of [get_comments] with the accumulator [all_comments].
    [requests_get] answers the comments url of a record with the
    ["comments"] entry of the body, if the body has one. *)
Fixpoint collect_comments
    (requests_get : string -> string -> http_reply (option (list (gmap string value))))
    (table_id : string) (records : list record) (all_comments : list (gmap string value))
    : comments_run :=
  match records with
  | [] => {| requested := []; comment_rows := Ok all_comments |}
  | record :: rest =>
      match requests_get table_id (rec_id record) with
      | ConnectionError =>
          {| requested := [rec_id record]; comment_rows := Raise RemoteError |}
      | Response status_code body =>
          if negb (Z.eqb status_code 200) then
            {| requested := [rec_id record]; comment_rows := Raise RemoteError |}
          else
            let comment_data := default [] body in
            let run := collect_comments requests_get table_id rest
                         (all_comments ++ map (stamp (rec_id record)) comment_data) in
            {| requested := rec_id record :: requested run;
               comment_rows := comment_rows run |}
      end
  end.

Definition get_comments (self : GetAirTables)
    (requests_get : string -> string -> http_reply (option (list (gmap string value))))
    (table_id : string) : comments_run :=
  match at_iterate self table_id with
  | Raise e => {| requested := []; comment_rows := Raise e |}
  | Ok records => collect_comments requests_get table_id records []
  end.

(** ** The routes of [main.py]

    Each route runs its dependency [get_api_key] first and its handler only
    when the dependency returns.  The rate limiter is the limiter library's
    and is not modelled; [airtables] is the client the startup hook
    created. *)

Module Routes.

(** The detail of an [HTTPException]: a literal, or [str(e)] of a caught
    exception. *)
Inductive detail : Type :=
| Text (s : string)
| StrOf (e : exn).

(** What a request is answered with: the dict the handler returns (the
    framework renders it with status 200), an [HTTPException], or an
    exception nothing catches.  Where the dict holds
    [df.to_dict(orient="records")], the body is kept as the frame [df], or
    as the rows the frame was built from: the conversion and the rendering
    of its cells are pandas' and the framework's. *)
Inductive route_answer (A : Type) : Type :=
| Answered (user_id : string) (body : A)
| HTTPError (status_code : Z) (d : detail)
| Unhandled (e : exn).
Arguments Answered {A} user_id body.
Arguments HTTPError {A} status_code d.
Arguments Unhandled {A} e.

(** An answer with the remote calls and printed lines behind it. *)
Record served (A : Type) : Type := Served {
  answer : route_answer A;
  calls : list event
}.
Arguments Served {A} answer calls.
Arguments answer {A} _.
Arguments calls {A} _.

(** An answer of the comments route with the records whose comments were
    requested behind it. *)
Record served_comments : Type := ServedComments {
  comments_answer : route_answer (list (gmap string value));
  comments_requested : list string
}.

(** [GET /table/{table_id}] *)
Definition get_table (airtables : GetAirTables) (x_api_key : option string)
    (table_id : string) : route_answer DataFrame :=
  match get_api_key (api_key_header x_api_key) with
  | HTTPException status_code d => HTTPError status_code (Text d)
  | Returned user_id =>
      match get_table airtables table_id with
      | Ok df => Answered user_id df
      | Raise e => HTTPError 500 (StrOf e)
      end
  end.

(** [GET /record_id/{table_id}]; [if record_id:] also rejects an empty
    identifier. *)
Definition get_record_id (nfkc : string -> string) (airtables : GetAirTables)
    (x_api_key : option string) (table_id id_column name_column : string)
    (query : string * string) : served string :=
  match get_api_key (api_key_header x_api_key) with
  | HTTPException status_code d => Served (HTTPError status_code (Text d)) []
  | Returned user_id =>
      let run := get_record_id nfkc airtables table_id id_column name_column query in
      Served
        match outcome run with
        | Ok (Some record_id) =>
            if negb (String.eqb record_id "") then Answered user_id record_id
            else HTTPError 404 (Text "Record not found")
        | Ok None => HTTPError 404 (Text "Record not found")
        | Raise e => Unhandled e
        end
        (trace run)
  end.

(** [GET /verify_updates/{table_id}], without a handler around the call. *)
Definition verify_updates (airtables : GetAirTables) (x_api_key : option string)
    (table_id name_column id_column update_column : string)
    : route_answer (list status_line) :=
  match get_api_key (api_key_header x_api_key) with
  | HTTPException status_code d => HTTPError status_code (Text d)
  | Returned user_id =>
      match verify_update_tables airtables table_id name_column id_column update_column with
      | Ok updates => Answered user_id updates
      | Raise e => Unhandled e
      end
  end.

(** [POST /verify_and_update/{table_id}] *)
Definition verify_and_update (nfkc : string -> string) (airtables : GetAirTables)
    (x_api_key : option string) (table_id name_column id_column update_column : string)
    (query : string * string) : served string :=
  match get_api_key (api_key_header x_api_key) with
  | HTTPException status_code d => Served (HTTPError status_code (Text d)) []
  | Returned user_id =>
      let run := verify_and_update nfkc airtables table_id name_column id_column
                   update_column query in
      Served
        match outcome run with
        | Ok true => Answered user_id "Updated"
        | Ok false => HTTPError 404 (Text "Record not found or update failed")
        | Raise e => Unhandled e
        end
        (trace run)
  end.

(** [GET /comments/{table_id}] *)
Definition get_comments (airtables : GetAirTables)
    (requests_get : string -> string -> http_reply (option (list (gmap string value))))
    (x_api_key : option string) (table_id : string) : served_comments :=
  match get_api_key (api_key_header x_api_key) with
  | HTTPException status_code d => ServedComments (HTTPError status_code (Text d)) []
  | Returned user_id =>
      let run := get_comments airtables requests_get table_id in
      ServedComments
        match comment_rows run with
        | Ok comments => Answered user_id comments
        | Raise e => HTTPError 500 (StrOf e)
        end
        (requested run)
  end.

(** [POST /comment/{table_id}/{record_id}], without a handler around the
    call. *)
Definition create_comment (airtables : GetAirTables) (x_api_key : option string)
    (table_id record_id comment : string) : served string :=
  match get_api_key (api_key_header x_api_key) with
  | HTTPException status_code d => Served (HTTPError status_code (Text d)) []
  | Returned user_id =>
      let run := create_comment airtables table_id record_id comment in
      Served
        match outcome run with
        | Ok true => Answered user_id "Comment created"
        | Ok false => HTTPError 500 (Text "Failed to create comment")
        | Raise e => Unhandled e
        end
        (trace run)
  end.

(** [GET /client_database] *)
Definition get_client_database (airtables : GetAirTables) (x_api_key : option string)
    (main_table_id checking_table_id id_column name_column : string)
    : route_answer DataFrame :=
  match get_api_key (api_key_header x_api_key) with
  | HTTPException status_code d => HTTPError status_code (Text d)
  | Returned user_id =>
      match get_client_database airtables main_table_id checking_table_id
              id_column name_column with
      | Ok df => Answered user_id df
      | Raise e => HTTPError 500 (StrOf e)
      end
  end.

End Routes.

(** ** The words of the specification

    The predicates below follow the specification's vocabulary; the
    theorems relate them to the loops above. *)

Definition record_fields (r : record) : gmap string value :=
  default ∅ (rec_fields r).

(** A value the conditional normalisation accepts: a string, or anything
    falsy. *)
Definition text_or_falsy (v : value) : bool :=
  match v with
  | VStr _ => true
  | _ => negb (truthy v)
  end.

(** A value with an [in] test. *)
Definition is_container (v : value) : bool :=
  match v with
  | VStr _ | VList _ => true
  | _ => false
  end.

(** The id field of the record contains the query id: as an element when
    the field is a list, as a substring when it is a string. *)
Definition id_contains (id_column client_id : string) (r : record) : bool :=
  match dict_get (record_fields r) id_column with
  | VStr s => str_contains client_id s
  | VList l => existsb (py_eq (VStr client_id)) l
  | _ => false
  end.

(** The update flag of the record, [False] when the field is absent. *)
Definition update_flag (update_column : string) (r : record) : value :=
  dict_get_default (record_fields r) update_column (VBool false).

(** The records of the table as a read answers them; none when the read
    fails. *)
Definition replied_records (reply : api_reply (list record)) : list record :=
  match reply with
  | Reply records => records
  | _ => []
  end.

(** Duplicate suppression by record identifier, as the specification words
    it. *)
Fixpoint append_new_by_id (records iterated : list record) : list record :=
  match iterated with
  | [] => records
  | r :: rest =>
      append_new_by_id
        (if existsb (fun e => String.eqb (rec_id e) (rec_id r)) records
         then records else records ++ [r]) rest
  end.

Section Words.

Variable nfkc : string -> string.

(** The field [col] of the record is a non-empty string whose normal form
    is exactly [q]. *)
Definition text_field_is (col q : string) (r : record) : bool :=
  match dict_get (record_fields r) col with
  | VStr s => negb (String.eqb s "") && String.eqb (nfkc s) q
  | _ => false
  end.

(** The record matches the query of the record matcher: name equal after
    normalisation, id contained in the id field. *)
Definition matches_contained (id_column name_column : string) (query : string * string)
    (r : record) : bool :=
  text_field_is name_column query.1 r && id_contains id_column query.2 r.

(** The record matches the query of verify-and-update: name and id both
    equal after normalisation. *)
Definition matches_exactly (name_column id_column : string) (query : string * string)
    (r : record) : bool :=
  text_field_is name_column query.1 r && text_field_is id_column query.2 r.

(** The matcher's loop passes the record without raising. *)
Definition passes_matcher (id_column name_column : string) (query : string * string)
    (r : record) : bool :=
  text_or_falsy (dict_get (record_fields r) name_column)
  && (negb (text_field_is name_column query.1 r)
      || is_container (dict_get (record_fields r) id_column)).

(** The loop of verify-and-update passes the record without raising. *)
Definition passes_verifier (name_column id_column : string) (r : record) : bool :=
  text_or_falsy (dict_get (record_fields r) name_column)
  && text_or_falsy (dict_get (record_fields r) id_column).


End Words.

(** ** Sample data *)

(** A normaliser for the examples.  It agrees with NFKC on text that is
    already normalised and on a lower-case vowel followed by the combining
    acute accent U+0301 (bytes 204 129), which it composes. *)
Definition compose_acute (c : ascii) : option string :=
  if Ascii.eqb c "a" then Some (String "195" (String "161" ""))
  else if Ascii.eqb c "e" then Some (String "195" (String "169" ""))
  else if Ascii.eqb c "i" then Some (String "195" (String "173" ""))
  else if Ascii.eqb c "o" then Some (String "195" (String "179" ""))
  else if Ascii.eqb c "u" then Some (String "195" (String "186" ""))
  else None.

Fixpoint nfkc_sample (s : string) : string :=
  match s with
  | EmptyString => EmptyString
  | String c rest =>
      match rest with
      | String "204" (String "129" rest') =>
          match compose_acute c with
          | Some composed => composed +:+ nfkc_sample rest'
          | None => String c (nfkc_sample rest)
          end
      | _ => String c (nfkc_sample rest)
      end
  end.

(** "José" with a precomposed e-acute (bytes 195 169). *)
Definition Jose_acute : string := "Jos" +:+ String "195" (String "169" "").

(** "José" written as e followed by the combining accent. *)
Definition Jose_combining : string := "Jose" +:+ String "204" (String "129" "").

Definition mk_record (id : string) (fields : list (string * value)) : record :=
  {| rec_id := id; rec_fields := Some (list_to_map fields); rec_keys := map fst fields |}.

(** Two clients named Bob; the first has no id field. *)
Definition two_bobs : list record :=
  [ mk_record "rec1" [("Name", VStr "Bob")];
    mk_record "rec2" [("Name", VStr "Bob"); ("Id", VList [VStr "X1"])] ].

(** Two clients, neither flagged as updated. *)
Definition pending_clients : list record :=
  [ mk_record "rec1" [("Name", VStr "Ann"); ("Id", VStr "X0")];
    mk_record "rec2" [("Name", VStr "Bob"); ("Id", VStr "X1")] ].

(** The same clients once Bob is flagged. *)
Definition flagged_clients : list record :=
  [ mk_record "rec1" [("Name", VStr "Ann"); ("Id", VStr "X0")];
    mk_record "rec2" [("Name", VStr "Bob"); ("Id", VStr "X1"); ("Done", VBool true)] ].

(** A client whose name is stored with the precomposed accent. *)
Definition jose_clients : list record :=
  [ mk_record "rec1" [("Name", VStr Jose_acute); ("Id", VList [VStr "X7"])] ].

(** A service that holds [tables], answers every read from them, declares
    [schema], and answers updates and comments as given. *)
Definition service (tables : string -> list record) (schema : list table_schema)
    (update_reply : api_reply (gmap string value)) (post_reply : http_reply string)
    : GetAirTables :=
  {| BASE_ID := "appBase";
     at_get := fun table_id _ => Reply (tables table_id);
     at_iterate := fun table_id => Ok (tables table_id);
     at_update := fun _ _ _ => update_reply;
     requests_get_schema := fun _ => Response 200 schema;
     requests_post_comment := fun _ _ _ => post_reply |}.

(** A service whose reads fail with the given answer. *)
Definition unreachable_service (failure : api_reply (list record)) : GetAirTables :=
  {| BASE_ID := "appBase";
     at_get := fun _ _ => failure;
     at_iterate := fun _ => Raise RemoteError;
     at_update := fun _ _ _ => Raises;
     requests_get_schema := fun _ => ConnectionError;
     requests_post_comment := fun _ _ _ => ConnectionError |}.

(** The same, with reads answered one page of [page_size] records at a
    time: [get] gives the first page, the iteration every record. *)
Definition paged_service (page_size : nat) (tables : string -> list record)
    (schema : list table_schema) : GetAirTables :=
  {| BASE_ID := "appBase";
     at_get := fun table_id _ => Reply (take page_size (tables table_id));
     at_iterate := fun table_id => Ok (tables table_id);
     at_update := fun _ _ _ => Raises;
     requests_get_schema := fun _ => Response 200 schema;
     requests_post_comment := fun _ _ _ => ConnectionError |}.

(** Three clients and the schema of their base. *)
Definition three_clients : list record :=
  [ mk_record "rec1" [("Name", VStr "Ann"); ("Id", VStr "X0")];
    mk_record "rec2" [("Name", VStr "Bob"); ("Id", VStr "X1"); ("Done", VBool true)];
    mk_record "rec3" [("Id", VStr "X2")] ].

Definition clients_schema : list table_schema :=
  [ {| ts_id := "tblOther"; ts_fields := ["Title"] |};
    {| ts_id := "tblClients"; ts_fields := ["Id"; "Name"; "Done"] |} ].

(** A main table and a checking table with the columns [id] and [name]. *)
Definition client_row (record_id id name : string) : record :=
  mk_record record_id [("id", VStr id); ("name", VStr name)].

Definition reconcile_schema : list table_schema :=
  [ {| ts_id := "main"; ts_fields := ["id"; "name"] |};
    {| ts_id := "checking"; ts_fields := ["id"; "name"] |} ].

Definition reconcile_service (main checking : list record) : GetAirTables :=
  service (fun table_id => if String.eqb table_id "main" then main else checking)
    reconcile_schema Raises ConnectionError.

(** Two clients; Bob's flag is the number 1. *)
Definition numeric_flag_clients : list record :=
  [ mk_record "rec1" [("Name", VStr "Ann"); ("Id", VStr "X0")];
    mk_record "rec2" [("Name", VStr "Bob"); ("Id", VStr "X1"); ("Done", VNum 1)] ].

(** A client whose id text contains the shorter id X1. *)
Definition long_id_client : record :=
  mk_record "rec7" [("Name", VStr "Bob"); ("Id", VStr "X10")].

(** The comments a call for a record answers ([[]] when the body has no
    ["comments"] entry), and whether the call is answered with status 200. *)
Definition answered_comments
    (requests_get : string -> string -> http_reply (option (list (gmap string value))))
    (table_id : string) (r : record) : list (gmap string value) :=
  match requests_get table_id (rec_id r) with
  | Response _ body => default [] body
  | ConnectionError => []
  end.

Definition answered_ok
    (requests_get : string -> string -> http_reply (option (list (gmap string value))))
    (table_id : string) (r : record) : bool :=
  match requests_get table_id (rec_id r) with
  | Response status_code _ => Z.eqb status_code 200
  | ConnectionError => false
  end.

(** A comments endpoint: two comments on rec1 (one already carrying a
    ["record_id"]), a body without comments on rec2, and 404 elsewhere. *)
Definition sample_comments (table_id record_id : string)
    : http_reply (option (list (gmap string value))) :=
  if String.eqb record_id "rec1" then
    Response 200
      (Some [ list_to_map [("id", VStr "com1"); ("text", VStr "called")];
              list_to_map [("id", VStr "com2"); ("record_id", VStr "elsewhere")] ])
  else if String.eqb record_id "rec2" then Response 200 None
  else Response 404 None.

(** A row of a main or checking table with arbitrary cells. *)
Definition client_row_of (record_id : string) (id name : value) : record :=
  mk_record record_id [("id", id); ("name", name)].



(** Two clients named Bob; the second has no id field. *)
Definition bob_before_bare_bob : list record :=
  [ mk_record "rec1" [("Name", VStr "Bob"); ("Id", VList [VStr "X1"])];
    mk_record "rec2" [("Name", VStr "Bob")] ].

(** * Properties *)

(** ** Python values *)

Ltac py_unfold :=
  unfold mbind, mret, result_bind, result_ret, io_mbind, io_mret,
    io_bind, io_ret, rbind, lift, emit in *.

Lemma io_eta {A} (m : io A) : IO (outcome m) (trace m) = m.
Proof. by destruct m. Qed.

Section MatcherFacts.

Variable nfkc : string -> string.

Lemma normalize_if_accepts (v : value) :
  text_or_falsy v = true ->
  normalize_if nfkc v =
    Ok (match v with
        | VStr s => if String.eqb s "" then VNone else VStr (nfkc s)
        | _ => VNone
        end).
Proof.
  unfold normalize_if. destruct v as [|b|n|s|l]; simpl; try done.
  - by destruct b.
  - by destruct (Z.eqb n 0).
  - by destruct (String.eqb s "").
  - by destruct l.
Qed.

Lemma normalize_if_rejects (v : value) :
  text_or_falsy v = false -> normalize_if nfkc v = Raise TypeError.
Proof.
  unfold normalize_if. destruct v as [|b|n|s|l]; simpl; try done.
  - by destruct b.
  - by destruct (Z.eqb n 0).
  - by destruct l.
Qed.

(** The normalised field equals the query text exactly when the field is a
    non-empty string with that normal form. *)
Lemma normalized_eq_query (col q : string) (r : record) (v : value) :
  normalize_if nfkc (dict_get (record_fields r) col) = Ok v ->
  py_eq v (VStr q) = text_field_is nfkc col q r.
Proof.
  unfold text_field_is.
  destruct (text_or_falsy (dict_get (record_fields r) col)) eqn:Hacc.
  - rewrite normalize_if_accepts by done. intros [= <-].
    destruct (dict_get (record_fields r) col); simpl; try done.
    by destruct (String.eqb s "").
  - by rewrite normalize_if_rejects.
Qed.

Lemma py_in_contains (id_column client_id : string) (r : record) (b : bool) :
  py_in client_id (dict_get (record_fields r) id_column) = Ok b ->
  b = id_contains id_column client_id r.
Proof.
  unfold id_contains, py_in.
  destruct (dict_get (record_fields r) id_column); by intros [= <-].
Qed.

(** The loop test of the matcher returns a boolean only as the words say. *)
Lemma record_id_hit_sound (id_column name_column : string) (query : string * string)
    (r : record) (b : bool) :
  record_id_hit nfkc id_column name_column query r = Ok b ->
  b = matches_contained nfkc id_column name_column query r.
Proof.
  destruct query as [client_full_name client_id].
  unfold record_id_hit, matches_contained. fold (record_fields r). py_unfold. simpl.
  destruct (normalize_if nfkc (dict_get (record_fields r) name_column)) as [v|] eqn:Hn;
    [|done].
  rewrite (normalized_eq_query _ _ _ _ Hn).
  destruct (text_field_is nfkc name_column client_full_name r); simpl.
  - apply py_in_contains.
  - by intros [= <-].
Qed.

Lemma record_id_hit_passes (id_column name_column : string) (query : string * string)
    (r : record) :
  passes_matcher nfkc id_column name_column query r = true ->
  record_id_hit nfkc id_column name_column query r =
    Ok (matches_contained nfkc id_column name_column query r).
Proof.
  destruct query as [client_full_name client_id].
  unfold passes_matcher, record_id_hit, matches_contained.
  fold (record_fields r). py_unfold. simpl.
  intros [Hname Hid]%andb_true_iff.
  destruct (normalize_if nfkc (dict_get (record_fields r) name_column)) as [v|] eqn:Hn.
  - rewrite (normalized_eq_query _ _ _ _ Hn).
    destruct (text_field_is nfkc name_column client_full_name r); simpl in *; [|done].
    unfold id_contains, py_in.
    by destruct (dict_get (record_fields r) id_column).
  - rewrite normalize_if_accepts in Hn by done. discriminate.
Qed.

(** A name that matches next to an id field without [in] raises. *)
Lemma record_id_hit_raises (id_column name_column : string) (query : string * string)
    (r : record) :
  text_field_is nfkc name_column query.1 r = true ->
  is_container (dict_get (record_fields r) id_column) = false ->
  record_id_hit nfkc id_column name_column query r = Raise TypeError.
Proof.
  destruct query as [client_full_name client_id]. simpl.
  unfold record_id_hit. fold (record_fields r). py_unfold.
  intros Hname Hid.
  destruct (normalize_if nfkc (dict_get (record_fields r) name_column)) as [v|] eqn:Hn.
  - rewrite (normalized_eq_query _ _ _ _ Hn), Hname.
    unfold py_in. by destruct (dict_get (record_fields r) id_column).
  - unfold text_field_is in Hname.
    destruct (dict_get (record_fields r) name_column) eqn:Hv; try done.
    rewrite normalize_if_accepts in Hn by done. discriminate.
Qed.


(** Records that do not match are passed or abort the loop. *)
Lemma scan_record_id_prefix (id_column name_column : string) (query : string * string)
    (pre rest : list record) :
  Forall (fun p => matches_contained nfkc id_column name_column query p = false) pre ->
  scan_record_id nfkc id_column name_column query (pre ++ rest) =
    scan_record_id nfkc id_column name_column query rest
  \/ exists e, scan_record_id nfkc id_column name_column query (pre ++ rest) = Raise e.
Proof.
  induction 1 as [|p pre Hp _ IH]; simpl; [by left|]. py_unfold.
  destruct (record_id_hit nfkc id_column name_column query p) as [b|] eqn:Hhit.
  - apply record_id_hit_sound in Hhit. rewrite Hp in Hhit. by subst.
  - right. by eexists.
Qed.

Lemma scan_record_id_skip (id_column name_column : string) (query : string * string)
    (pre rest : list record) :
  Forall (fun p => passes_matcher nfkc id_column name_column query p = true
                   /\ matches_contained nfkc id_column name_column query p = false) pre ->
  scan_record_id nfkc id_column name_column query (pre ++ rest) =
    scan_record_id nfkc id_column name_column query rest.
Proof.
  induction 1 as [|p pre [Hpass Hno] _ IH]; simpl; [done|]. py_unfold.
  by rewrite record_id_hit_passes, Hno.
Qed.

(** The method, with its handler unfolded. *)
Lemma get_record_id_unfold (self : GetAirTables) (table_id id_column name_column : string)
    (query : string * string) :
  get_record_id nfkc self table_id id_column name_column query =
    let get := AtGet table_id [name_column; id_column] in
    match payload (at_get self table_id [name_column; id_column]) with
    | Ok records =>
        match scan_record_id nfkc id_column name_column query records with
        | Ok found => IO (Ok found) [get]
        | Raise e => IO (Ok None) [get; Print (ErrorInGetRecordId e)]
        end
    | Raise e => IO (Ok None) [get; Print (ErrorInGetRecordId e)]
    end.
Proof.
  unfold get_record_id, try_except. py_unfold. simpl.
  destruct (payload _) as [records|e]; simpl; [|done].
  by destruct (scan_record_id _ _ _ _ _).
Qed.

End MatcherFacts.

(** ** The record matcher *)

Section Matcher.

Variable nfkc : string -> string.

(** The matcher answers, and never with an exception. *)
Lemma get_record_id_total (self : GetAirTables) (table_id id_column name_column : string)
    (query : string * string) :
  exists found,
    outcome (get_record_id nfkc self table_id id_column name_column query) = Ok found.
Proof.
  rewrite get_record_id_unfold. simpl.
  destruct (payload _) as [records|e]; [|by eexists].
  destruct (scan_record_id _ _ _ _ _) as [found|e]; by eexists.
Qed.




(** C9 (amended): when a record's name normalises to the query name and its
    id field is absent or null, and no earlier record matches on name and
    id, the loop raises at that record at the latest; the handler prints
    the error and the method returns none, whatever records follow.  When
    the earlier records are passed without an exception, what is raised is
    the [TypeError] of the containment test. *)
Theorem get_record_id_aborts_on_missing_id (self : GetAirTables)
    (table_id id_column name_column : string) (query : string * string)
    (pre post : list record) (r : record) :
  at_get self table_id [name_column; id_column] = Reply (pre ++ r :: post) ->
  Forall (fun p => matches_contained nfkc id_column name_column query p = false) pre ->
  text_field_is nfkc name_column query.1 r = true ->
  dict_get (record_fields r) id_column = VNone ->
  (exists e,
      scan_record_id nfkc id_column name_column query (pre ++ r :: post) = Raise e
      /\ get_record_id nfkc self table_id id_column name_column query =
           IO (Ok None) [AtGet table_id [name_column; id_column];
                         Print (ErrorInGetRecordId e)])
  /\ (Forall (fun p => passes_matcher nfkc id_column name_column query p = true) pre ->
      scan_record_id nfkc id_column name_column query (pre ++ r :: post)
        = Raise TypeError).
Proof.
  intros Hget Hpre Hname Hid.
  assert (record_id_hit nfkc id_column name_column query r = Raise TypeError) as Hr.
  { apply record_id_hit_raises; [done|]. by rewrite Hid. }
  assert (scan_record_id nfkc id_column name_column query (r :: post) = Raise TypeError)
    as Hrest.
  { simpl. py_unfold. by rewrite Hr. }
  split.
  - rewrite get_record_id_unfold, Hget. simpl.
    destruct (scan_record_id_prefix nfkc id_column name_column query pre (r :: post) Hpre)
      as [Heq|[e He]].
    + exists TypeError. by rewrite Heq, Hrest.
    + exists e. by rewrite He.
  - intros Hpass. rewrite scan_record_id_skip; [done|].
    rewrite Forall_forall in *. intros p Hp. split; auto.
Qed.

End Matcher.

(** Decides a [Forall] over the records of a sample table. *)
Ltac forall_records :=
  cbn [replied_records service at_get];
  unfold pending_clients, flagged_clients, jose_clients, two_bobs;
  repeat (apply List.Forall_cons; [try split; vm_compute; reflexivity|]);
  apply List.Forall_nil.



(** C9, as stated, fails: the second record of [bob_before_bare_bob] has
    the query name and no id field, and the method returns the identifier
    of the first record, which matches on both, not none. *)
Lemma get_record_id_returns_earlier_match :
  existsb (fun r => text_field_is nfkc_sample "Name" "Bob" r
                    && negb (bool_decide (is_Some (record_fields r !! "Id"))))
    bob_before_bare_bob = true
  /\ outcome (get_record_id nfkc_sample
                (service (fun _ => bob_before_bare_bob) [] Raises ConnectionError)
                "clients" "Id" "Name" ("Bob", "X1")) = Ok (Some "rec1")
  /\ outcome (get_record_id nfkc_sample
                (service (fun _ => bob_before_bare_bob) [] Raises ConnectionError)
                "clients" "Id" "Name" ("Bob", "X1")) <> Ok None.
Proof. split; [|split]; vm_compute; [reflexivity | reflexivity | discriminate]. Qed.

Lemma get_record_id_aborts_on_missing_id_witness :
  (exists e,
      scan_record_id nfkc_sample "Id" "Name" ("Bob", "X1") two_bobs = Raise e
      /\ get_record_id nfkc_sample
           (service (fun _ => two_bobs) [] Raises ConnectionError)
           "clients" "Id" "Name" ("Bob", "X1")
         = IO (Ok None) [AtGet "clients" ["Name"; "Id"]; Print (ErrorInGetRecordId e)])
  /\ (Forall (fun p => passes_matcher nfkc_sample "Id" "Name" ("Bob", "X1") p = true) [] ->
      scan_record_id nfkc_sample "Id" "Name" ("Bob", "X1") two_bobs = Raise TypeError).
Proof.
  apply (get_record_id_aborts_on_missing_id nfkc_sample
           (service (fun _ => two_bobs) [] Raises ConnectionError)
           "clients" "Id" "Name" ("Bob", "X1")
           [] [mk_record "rec2" [("Name", VStr "Bob"); ("Id", VList [VStr "X1"])]]
           (mk_record "rec1" [("Name", VStr "Bob")])).
  - reflexivity.
  - constructor.
  - vm_compute. reflexivity.
  - vm_compute. reflexivity.
Defined.

(** ** Verify-and-update *)

Section VerifierFacts.

Variable nfkc : string -> string.

Lemma update_hit_passes (name_column id_column : string) (query : string * string)
    (r : record) :
  passes_verifier name_column id_column r = true ->
  update_hit nfkc name_column id_column query r =
    Ok (matches_exactly nfkc name_column id_column query r).
Proof.
  destruct query as [client_full_name client_id].
  unfold passes_verifier, update_hit, matches_exactly. fold (record_fields r).
  py_unfold. simpl. intros [Hname Hid]%andb_true_iff.
  destruct (normalize_if nfkc (dict_get (record_fields r) name_column)) as [v|] eqn:Hv;
    [|by rewrite normalize_if_accepts in Hv].
  destruct (normalize_if nfkc (dict_get (record_fields r) id_column)) as [w|] eqn:Hw;
    [|by rewrite normalize_if_accepts in Hw].
  by rewrite (normalized_eq_query _ _ client_full_name _ _ Hv),
    (normalized_eq_query _ _ client_id _ _ Hw).
Qed.

Lemma update_hit_rejects (name_column id_column : string) (query : string * string)
    (r : record) :
  passes_verifier name_column id_column r = false ->
  update_hit nfkc name_column id_column query r = Raise TypeError.
Proof.
  destruct query as [client_full_name client_id].
  unfold passes_verifier, update_hit. fold (record_fields r). py_unfold.
  intros [Hname|Hid]%andb_false_iff.
  - by rewrite normalize_if_rejects.
  - rewrite (normalize_if_rejects _ _ Hid).
    destruct (text_or_falsy (dict_get (record_fields r) name_column)) eqn:Hname.
    + by rewrite normalize_if_accepts.
    + by rewrite normalize_if_rejects.
Qed.

Lemma matches_exactly_passes (name_column id_column : string) (query : string * string)
    (r : record) :
  matches_exactly nfkc name_column id_column query r = true ->
  passes_verifier name_column id_column r = true.
Proof.
  unfold matches_exactly, passes_verifier, text_field_is.
  intros [Hname Hid]%andb_true_iff.
  destruct (dict_get (record_fields r) name_column); try done.
  by destruct (dict_get (record_fields r) id_column).
Qed.

(** Records that are passed and do not match leave no trace. *)
Lemma scan_and_update_skip (self : GetAirTables)
    (table_id name_column id_column update_column : string) (query : string * string)
    (pre rest : list record) :
  Forall (fun p => passes_verifier name_column id_column p = true
                   /\ matches_exactly nfkc name_column id_column query p = false) pre ->
  scan_and_update nfkc self table_id name_column id_column update_column query (pre ++ rest)
  = scan_and_update nfkc self table_id name_column id_column update_column query rest.
Proof.
  induction 1 as [|p pre [Hpass Hno] _ IH]; simpl; [done|]. py_unfold.
  rewrite update_hit_passes, Hno by done. simpl. rewrite IH. apply io_eta.
Qed.

(** What the loop does at a record that matches. *)
Lemma scan_and_update_at_match (self : GetAirTables)
    (table_id name_column id_column update_column : string) (query : string * string)
    (r : record) (rest : list record) :
  matches_exactly nfkc name_column id_column query r = true ->
  scan_and_update nfkc self table_id name_column id_column update_column query (r :: rest)
  = if truthy (update_flag update_column r) then IO (Ok true) []
    else
      let data : gmap string value := {[ update_column := VBool true ]} in
      let reply := at_update self table_id (rec_id r) data in
      let write := AtUpdate table_id (rec_id r) data (accepted_reply reply) in
      match reply with
      | Reply response_fields =>
          match response_fields !! name_column with
          | Some name => IO (Ok true) [write; Print (UpdateDone name)]
          | None => IO (Raise KeyError) [write]
          end
      | ErrorReply _ => IO (Raise KeyError) [write]
      | Raises => IO (Raise RemoteError) [write]
      end.
Proof.
  intros Hm. simpl. py_unfold.
  rewrite update_hit_passes, Hm by (by eapply matches_exactly_passes). simpl.
  fold (record_fields r). fold (update_flag update_column r).
  destruct (truthy (update_flag update_column r)); simpl; [done|].
  destruct (at_update self table_id (rec_id r) _) as [response_fields| |]; simpl; try done.
  unfold dict_item. by destruct (response_fields !! name_column).
Qed.

(** A refused write makes the loop raise. *)
Lemma scan_and_update_refused (self : GetAirTables)
    (table_id name_column id_column update_column : string) (query : string * string)
    (records : list record) (t record_id : string) (data : gmap string value) :
  In (AtUpdate t record_id data false)
     (trace (scan_and_update nfkc self table_id name_column id_column update_column
               query records)) ->
  exists e,
    outcome (scan_and_update nfkc self table_id name_column id_column update_column
               query records) = Raise e.
Proof.
  induction records as [|r rest IH].
  - simpl. intros [|[]]; done.
  - destruct (passes_verifier name_column id_column r) eqn:Hpass.
    + destruct (matches_exactly nfkc name_column id_column query r) eqn:Hm.
      * rewrite scan_and_update_at_match by done.
        destruct (truthy (update_flag update_column r)); [by intros []|].
        simpl.
        destruct (at_update self table_id (rec_id r) _) as [response_fields| |]; simpl.
        -- destruct (response_fields !! name_column); simpl.
           ++ intros [|[|[]]]; done.
           ++ by eexists.
        -- by eexists.
        -- by eexists.
      * change (r :: rest) with ([r] ++ rest).
        rewrite (scan_and_update_skip self table_id name_column id_column update_column
                   query [r] rest) by (by repeat constructor).
        apply IH.
    + simpl. py_unfold. rewrite update_hit_rejects by done. simpl. by intros [].
Qed.

(** The method, with its handler unfolded. *)
Lemma verify_and_update_unfold (self : GetAirTables)
    (table_id name_column id_column update_column : string) (query : string * string) :
  verify_and_update nfkc self table_id name_column id_column update_column query =
    let get := AtGet table_id [name_column; id_column; update_column] in
    match payload (at_get self table_id [name_column; id_column; update_column]) with
    | Ok records =>
        let scan := scan_and_update nfkc self table_id name_column id_column
                      update_column query records in
        match outcome scan with
        | Ok found => IO (Ok found) (get :: trace scan)
        | Raise e => IO (Ok false) (get :: trace scan ++ [Print (ErrorCheckingUpdate e)])
        end
    | Raise e => IO (Ok false) [get; Print (ErrorCheckingUpdate e)]
    end.
Proof.
  unfold verify_and_update, try_except. py_unfold. simpl.
  destruct (payload _) as [records|e]; simpl; [|done].
  by destruct (outcome (scan_and_update _ _ _ _ _ _ _ _)).
Qed.

(** The method answers, and never with an exception. *)
Lemma verify_and_update_total (self : GetAirTables)
    (table_id name_column id_column update_column : string) (query : string * string) :
  exists found,
    outcome (verify_and_update nfkc self table_id name_column id_column update_column
               query) = Ok found.
Proof.
  rewrite verify_and_update_unfold. simpl.
  destruct (payload _) as [records|e]; [|by eexists].
  destruct (outcome (scan_and_update _ _ _ _ _ _ _ _)); by eexists.
Qed.

(** Reaching a first match: the method reduces to the step at that record. *)
Lemma verify_and_update_at_first_match (self : GetAirTables)
    (table_id name_column id_column update_column : string) (query : string * string)
    (pre post : list record) (r : record) :
  at_get self table_id [name_column; id_column; update_column] = Reply (pre ++ r :: post) ->
  Forall (fun p => passes_verifier name_column id_column p = true
                   /\ matches_exactly nfkc name_column id_column query p = false) pre ->
  verify_and_update nfkc self table_id name_column id_column update_column query =
    let get := AtGet table_id [name_column; id_column; update_column] in
    let scan := scan_and_update nfkc self table_id name_column id_column
                  update_column query (r :: post) in
    match outcome scan with
    | Ok found => IO (Ok found) (get :: trace scan)
    | Raise e => IO (Ok false) (get :: trace scan ++ [Print (ErrorCheckingUpdate e)])
    end.
Proof.
  intros Hget Hpre. rewrite verify_and_update_unfold, Hget. cbn [payload].
  by rewrite (scan_and_update_skip self table_id name_column id_column update_column
                query pre (r :: post) Hpre).
Qed.

End VerifierFacts.

(** An accepted write of the flag changes a record whose flag was falsy. *)
Lemma apply_update_changes (update_column : string) (r : record) :
  truthy (update_flag update_column r) = false ->
  apply_update (rec_id r) {[ update_column := VBool true ]} r <> r.
Proof.
  intros Hflag Heq. unfold apply_update in Heq. rewrite String.eqb_refl in Heq.
  assert (rec_fields r = Some ({[ update_column := VBool true ]} ∪ default ∅ (rec_fields r)))
    as Hfields by (by rewrite <- Heq at 1).
  unfold update_flag, dict_get_default, record_fields in Hflag.
  rewrite Hfields in Hflag. simpl in Hflag.
  erewrite lookup_union_Some_l in Hflag; [|apply lookup_singleton_eq]. done.
Qed.

Lemma map_apply_update_changes (update_column : string) (pre post : list record)
    (r : record) :
  truthy (update_flag update_column r) = false ->
  map (apply_update (rec_id r) {[ update_column := VBool true ]}) (pre ++ r :: post)
    <> pre ++ r :: post.
Proof.
  intros Hflag Heq. rewrite map_app in Heq. simpl in Heq.
  apply app_inj_1 in Heq as [_ Heq]; [|by rewrite length_map].
  injection Heq as Hr _. by apply (apply_update_changes update_column r).
Qed.

Section Verifier.

Variable nfkc : string -> string.


(** C5 (amended): when the read succeeds and the first record that matches
    is reached without an exception, then (a) if its update flag is truthy,
    in particular exactly true, [verify_and_update] performs no remote
    write, leaves the table as it was and returns true; and (b) it returns
    true, written or not, whenever the service accepts the write it may
    attempt and answers with the name column. *)
Theorem verify_and_update_found (self : GetAirTables)
    (table_id name_column id_column update_column : string) (query : string * string)
    (pre post : list record) (r : record) :
  at_get self table_id [name_column; id_column; update_column] = Reply (pre ++ r :: post) ->
  Forall (fun p => passes_verifier name_column id_column p = true
                   /\ matches_exactly nfkc name_column id_column query p = false) pre ->
  matches_exactly nfkc name_column id_column query r = true ->
  let done := verify_and_update nfkc self table_id name_column id_column update_column
                query in
  (truthy (update_flag update_column r) = true ->
     done = IO (Ok true) [AtGet table_id [name_column; id_column; update_column]]
     /\ List.filter is_write (trace done) = []
     /\ table_after table_id (trace done) (pre ++ r :: post) = pre ++ r :: post)
  /\ (forall response_fields name,
        at_update self table_id (rec_id r) {[ update_column := VBool true ]}
          = Reply response_fields ->
        response_fields !! name_column = Some name ->
        outcome done = Ok true).
Proof.
  intros Hget Hpre Hm done. subst done.
  rewrite (verify_and_update_at_first_match nfkc self table_id name_column id_column
             update_column query pre post r Hget Hpre).
  rewrite scan_and_update_at_match by done. split.
  - intros Hflag. by rewrite Hflag.
  - intros response_fields name Hupdate Hname.
    destruct (truthy (update_flag update_column r)); [done|].
    cbv zeta. by rewrite Hupdate, Hname.
Qed.

(** C8: when the first matching record has a falsy flag and the service
    accepts the write but its answer lacks the name column, the line that
    prints the name raises, the handler returns false, and the accepted
    write is in the trace: the table the service holds is no longer the
    table that was read. *)
Theorem verify_and_update_not_atomic (self : GetAirTables)
    (table_id name_column id_column update_column : string) (query : string * string)
    (pre post : list record) (r : record) (response_fields : gmap string value) :
  at_get self table_id [name_column; id_column; update_column] = Reply (pre ++ r :: post) ->
  Forall (fun p => passes_verifier name_column id_column p = true
                   /\ matches_exactly nfkc name_column id_column query p = false) pre ->
  matches_exactly nfkc name_column id_column query r = true ->
  truthy (update_flag update_column r) = false ->
  at_update self table_id (rec_id r) {[ update_column := VBool true ]}
    = Reply response_fields ->
  response_fields !! name_column = None ->
  let done := verify_and_update nfkc self table_id name_column id_column update_column
                query in
  outcome done = Ok false
  /\ trace done = [AtGet table_id [name_column; id_column; update_column];
                   AtUpdate table_id (rec_id r) {[ update_column := VBool true ]} true;
                   Print (ErrorCheckingUpdate KeyError)]
  /\ table_after table_id (trace done) (pre ++ r :: post) <> pre ++ r :: post.
Proof.
  intros Hget Hpre Hm Hflag Hupdate Hname done. subst done.
  rewrite (verify_and_update_at_first_match nfkc self table_id name_column id_column
             update_column query pre post r Hget Hpre).
  rewrite scan_and_update_at_match by done.
  rewrite Hflag. cbv zeta. rewrite Hupdate, Hname. simpl.
  repeat split. rewrite String.eqb_refl.
  by apply map_apply_update_changes.
Qed.

(** C6: a failed read makes [get_record_id] return none and
    [verify_and_update] return false, and so does a write the service
    refuses; both methods always answer with a value, never an exception,
    and the value is the one an empty table gives. *)
Theorem remote_failure_is_not_found (self : GetAirTables)
    (table_id name_column id_column update_column : string) (query : string * string) :
  let found := get_record_id nfkc self table_id id_column name_column query in
  let done := verify_and_update nfkc self table_id name_column id_column update_column
                query in
  (accepted_reply (at_get self table_id [name_column; id_column]) = false ->
     outcome found = Ok None)
  /\ (accepted_reply (at_get self table_id [name_column; id_column; update_column]) = false ->
     outcome done = Ok false)
  /\ (forall t record_id data,
        In (AtUpdate t record_id data false) (trace done) -> outcome done = Ok false)
  /\ (exists answer, outcome found = Ok answer)
  /\ (exists answer, outcome done = Ok answer)
  /\ (forall empty,
        at_get empty table_id [name_column; id_column] = Reply [] ->
        at_get empty table_id [name_column; id_column; update_column] = Reply [] ->
        outcome (get_record_id nfkc empty table_id id_column name_column query) = Ok None
        /\ outcome (verify_and_update nfkc empty table_id name_column id_column
                      update_column query) = Ok false).
Proof.
  intros found done. subst found done.
  split; [|split; [|split; [|split; [|split]]]].
  - rewrite get_record_id_unfold.
    by destruct (at_get self table_id [name_column; id_column]).
  - rewrite verify_and_update_unfold.
    by destruct (at_get self table_id [name_column; id_column; update_column]).
  - intros t record_id data. rewrite verify_and_update_unfold.
    destruct (at_get self table_id [name_column; id_column; update_column])
      as [records| |]; simpl; try done.
    destruct (outcome (scan_and_update _ _ _ _ _ _ _ _)) as [answer|e] eqn:Hscan; [|done].
    simpl. intros [Hget|Hin]; [done|].
    apply scan_and_update_refused in Hin as [e He]. congruence.
  - apply get_record_id_total.
  - apply verify_and_update_total.
  - intros empty Hmatcher Hverifier. split.
    + rewrite get_record_id_unfold. by rewrite Hmatcher.
    + rewrite verify_and_update_unfold. by rewrite Hverifier.
Qed.

End Verifier.



Lemma verify_and_update_found_witness :
  (truthy (update_flag "Done"
             (mk_record "rec2" [("Name", VStr "Bob"); ("Id", VStr "X1");
                                ("Done", VBool true)])) = true ->
   verify_and_update nfkc_sample
     (service (fun _ => flagged_clients) []
        (Reply (list_to_map [("Name", VStr "Bob")])) ConnectionError)
     "clients" "Name" "Id" "Done" ("Bob", "X1")
   = IO (Ok true) [AtGet "clients" ["Name"; "Id"; "Done"]])
  /\ outcome (verify_and_update nfkc_sample
                (service (fun _ => pending_clients) []
                   (Reply (list_to_map [("Name", VStr "Bob")])) ConnectionError)
                "clients" "Name" "Id" "Done" ("Bob", "X1")) = Ok true.
Proof.
  split.
  - intros Hflag.
    apply (proj1 (verify_and_update_found nfkc_sample
             (service (fun _ => flagged_clients) []
                (Reply (list_to_map [("Name", VStr "Bob")])) ConnectionError)
             "clients" "Name" "Id" "Done" ("Bob", "X1")
             [mk_record "rec1" [("Name", VStr "Ann"); ("Id", VStr "X0")]] []
             (mk_record "rec2" [("Name", VStr "Bob"); ("Id", VStr "X1");
                                ("Done", VBool true)])
             eq_refl
             ltac:(forall_records)
             ltac:(vm_compute; reflexivity)) Hflag).
  - apply (proj2 (verify_and_update_found nfkc_sample
             (service (fun _ => pending_clients) []
                (Reply (list_to_map [("Name", VStr "Bob")])) ConnectionError)
             "clients" "Name" "Id" "Done" ("Bob", "X1")
             [mk_record "rec1" [("Name", VStr "Ann"); ("Id", VStr "X0")]] []
             (mk_record "rec2" [("Name", VStr "Bob"); ("Id", VStr "X1")])
             eq_refl
             ltac:(forall_records)
             ltac:(vm_compute; reflexivity))
             (list_to_map [("Name", VStr "Bob")]) (VStr "Bob")).
    + reflexivity.
    + vm_compute. reflexivity.
Defined.

(** C5, as stated, fails in its general part: Bob matches, the write of the
    flag is refused by the service, and the method returns false. *)
Lemma verify_and_update_match_yet_false :
  matches_exactly nfkc_sample "Name" "Id" ("Bob", "X1")
    (mk_record "rec2" [("Name", VStr "Bob"); ("Id", VStr "X1")]) = true
  /\ outcome (verify_and_update nfkc_sample
                (service (fun _ => pending_clients) [] Raises ConnectionError)
                "clients" "Name" "Id" "Done" ("Bob", "X1")) = Ok false.
Proof. split; vm_compute; reflexivity. Qed.

Lemma verify_and_update_not_atomic_witness :
  let done := verify_and_update nfkc_sample
                (service (fun _ => pending_clients) []
                   (Reply (list_to_map [("Done", VBool true)])) ConnectionError)
                "clients" "Name" "Id" "Done" ("Bob", "X1") in
  outcome done = Ok false
  /\ trace done = [AtGet "clients" ["Name"; "Id"; "Done"];
                   AtUpdate "clients" "rec2" {[ "Done" := VBool true ]} true;
                   Print (ErrorCheckingUpdate KeyError)]
  /\ table_after "clients" (trace done) pending_clients <> pending_clients.
Proof.
  apply (verify_and_update_not_atomic nfkc_sample
           (service (fun _ => pending_clients) []
              (Reply (list_to_map [("Done", VBool true)])) ConnectionError)
           "clients" "Name" "Id" "Done" ("Bob", "X1")
           [mk_record "rec1" [("Name", VStr "Ann"); ("Id", VStr "X0")]] []
           (mk_record "rec2" [("Name", VStr "Bob"); ("Id", VStr "X1")])
           (list_to_map [("Done", VBool true)])).
  - reflexivity.
  - forall_records.
  - vm_compute. reflexivity.
  - vm_compute. reflexivity.
  - reflexivity.
  - vm_compute. reflexivity.
Defined.

Lemma remote_failure_is_not_found_witness :
  outcome (get_record_id nfkc_sample (unreachable_service (ErrorReply 503))
             "clients" "Id" "Name" ("Bob", "X1")) = Ok None
  /\ outcome (verify_and_update nfkc_sample (unreachable_service Raises)
                "clients" "Name" "Id" "Done" ("Bob", "X1")) = Ok false
  /\ outcome (verify_and_update nfkc_sample
                (service (fun _ => pending_clients) [] (ErrorReply 422) ConnectionError)
                "clients" "Name" "Id" "Done" ("Bob", "X1")) = Ok false.
Proof.
  split; [|split].
  - apply (proj1 (remote_failure_is_not_found nfkc_sample
             (unreachable_service (ErrorReply 503))
             "clients" "Name" "Id" "Done" ("Bob", "X1"))).
    reflexivity.
  - apply (proj1 (proj2 (remote_failure_is_not_found nfkc_sample
             (unreachable_service Raises)
             "clients" "Name" "Id" "Done" ("Bob", "X1")))).
    reflexivity.
  - apply (proj1 (proj2 (proj2 (remote_failure_is_not_found nfkc_sample
             (service (fun _ => pending_clients) [] (ErrorReply 422) ConnectionError)
             "clients" "Name" "Id" "Done" ("Bob", "X1"))))
             "clients" "rec2" {[ "Done" := VBool true ]}).
    vm_compute. right. left. reflexivity.
Defined.

(** ** Comments *)

(** C7 (amended): when the service answers the post, [create_comment]
    returns true exactly when the status is 200 and otherwise prints the
    error and returns false; it returns true in no other case.  When the
    request itself raises, no handler stands in the way: the exception
    leaves the method and nothing is printed. *)
Theorem create_comment_outcomes (self : GetAirTables)
    (table_id record_id comment : string) :
  let posted := create_comment self table_id record_id comment in
  let reply := requests_post_comment self table_id record_id comment in
  (forall status_code text,
      reply = Response status_code text ->
      outcome posted = Ok (Z.eqb status_code 200)
      /\ trace posted =
           [PostComment table_id record_id comment (Z.eqb status_code 200);
            Print (if Z.eqb status_code 200 then Commented
                   else ErrorCreatingComment record_id status_code text)])
  /\ (outcome posted = Ok true <-> exists text, reply = Response 200 text)
  /\ (reply = ConnectionError ->
      posted = IO (Raise RemoteError) [PostComment table_id record_id comment false]).
Proof.
  intros posted reply. subst posted reply. unfold create_comment. py_unfold.
  destruct (requests_post_comment self table_id record_id comment)
    as [status_code text|]; simpl.
  - split; [|split].
    + intros ? ? [= <- <-]. by destruct (Z.eqb status_code 200).
    + destruct (Z.eqb_spec status_code 200) as [->|Hne]; simpl.
      * split; [by exists text|done].
      * split; [done|]. by intros [? [= ? _]].
    + done.
  - split; [done|]. split; [|done]. split; [done|]. by intros [? ?].
Qed.

Lemma create_comment_outcomes_witness :
  outcome (create_comment
             (service (fun _ => pending_clients) [] Raises (Response 200 "{}"))
             "clients" "rec2" "flag checked") = Ok true
  /\ outcome (create_comment
                (service (fun _ => pending_clients) [] Raises (Response 404 "NOT_FOUND"))
                "clients" "rec9" "flag checked") = Ok false
  /\ create_comment
       (service (fun _ => pending_clients) [] Raises ConnectionError)
       "clients" "rec2" "flag checked"
     = IO (Raise RemoteError) [PostComment "clients" "rec2" "flag checked" false].
Proof.
  split; [|split].
  - apply (proj1 (create_comment_outcomes
             (service (fun _ => pending_clients) [] Raises (Response 200 "{}"))
             "clients" "rec2" "flag checked") 200%Z "{}").
    reflexivity.
  - apply (proj1 (create_comment_outcomes
             (service (fun _ => pending_clients) [] Raises (Response 404 "NOT_FOUND"))
             "clients" "rec9" "flag checked") 404%Z "NOT_FOUND").
    reflexivity.
  - apply (proj2 (proj2 (create_comment_outcomes
             (service (fun _ => pending_clients) [] Raises ConnectionError)
             "clients" "rec2" "flag checked"))).
    reflexivity.
Defined.

(** C7, as stated, fails: when the request raises, [create_comment] does not
    return a boolean, the exception passes its boundary. *)
Lemma create_comment_raises :
  ~ (forall (self : GetAirTables) (table_id record_id comment : string),
       exists answer : bool,
         outcome (create_comment self table_id record_id comment) = Ok answer).
Proof.
  intros Hnever.
  destruct (Hnever (service (fun _ => pending_clients) [] Raises ConnectionError)
              "clients" "rec2" "flag checked") as [answer Hanswer].
  vm_compute in Hanswer. discriminate.
Qed.

(** ** Authentication *)

(** C10 (amended): on every route guarded by the dependency, a request
    without the header, or with an empty one, is answered 400, and a request
    whose header is a non-empty value other than the configured secret is
    answered 403; [GET /protected] with the secret is answered 200. *)
Theorem api_key_statuses (handler : string -> string) :
  status (serve handler None) = 400%Z
  /\ status (serve handler (Some "")) = 400%Z
  /\ (forall key, key <> "" -> key <> "valid_api_key" ->
      status (serve handler (Some key)) = 403%Z)
  /\ get_protected (Some "valid_api_key")
     = {| status := 200; content := "Access granted for user valid_api_key" |}.
Proof.
  split; [done|]. split; [done|]. split; [|done].
  intros key Hempty Hkey. unfold serve, get_api_key, api_key_header.
  destruct (String.eqb_spec key ""); [done|].
  destruct (String.eqb_spec key "valid_api_key"); by simpl.
Qed.

Lemma api_key_statuses_witness :
  status (serve protected_route (Some "guessed_key")) = 403%Z.
Proof.
  apply (proj1 (proj2 (proj2 (api_key_statuses protected_route))) "guessed_key");
    discriminate.
Defined.

(** C10, as stated, fails: a header whose value is empty is a value other
    than the secret, and the request is answered 400, not 403. *)
Lemma empty_api_key_answered_400 :
  "" <> "valid_api_key"
  /\ status (get_protected (Some "")) = 400%Z
  /\ status (get_protected (Some "")) <> 403%Z.
Proof. split; [discriminate|]. split; [reflexivity | vm_compute; discriminate]. Qed.

(** ** Fetching a table *)

Lemma py_eq_refl : forall v : value, py_eq v v = true.
Proof.
  fix IH 1. intros [|b|n|s|l]; simpl.
  - done.
  - by destruct b.
  - apply Z.eqb_refl.
  - apply String.eqb_refl.
  - induction l as [|x l IHl]; [done|]. by rewrite IH, IHl.
Qed.

Lemma dict_eq_refl (d : gmap string value) : dict_eq d d = true.
Proof.
  unfold dict_eq. apply andb_true_iff. split; apply forallb_forall.
  - intros [k v] Hin%list_elem_of_In%elem_of_map_to_list. simpl.
    rewrite Hin. apply py_eq_refl.
  - intros [k v] Hin%list_elem_of_In%elem_of_map_to_list. simpl.
    apply bool_decide_eq_true. by eexists.
Qed.

Lemma record_eq_refl (r : record) : record_eq r r = true.
Proof.
  unfold record_eq. rewrite String.eqb_refl. simpl.
  destruct (rec_fields r); [|done].
  rewrite dict_eq_refl. by apply bool_decide_eq_true.
Qed.

Lemma record_eq_same_id (r e : record) : record_eq r e = true -> rec_id r = rec_id e.
Proof. unfold record_eq. by intros [Hid%String.eqb_eq _]%andb_true_iff. Qed.

(** Records that are already in the list are suppressed. *)
Lemma append_new_present (records iterated : list record) :
  incl iterated records -> append_new records iterated = records.
Proof.
  induction iterated as [|r rest IH]; simpl; [done|]. intros Hincl.
  assert (existsb (record_eq r) records = true) as ->.
  { apply existsb_exists. exists r. split; [apply Hincl; by left | apply record_eq_refl]. }
  apply IH. intros e He. apply Hincl. by right.
Qed.

(** Records with fresh identifiers are appended. *)
Lemma append_new_fresh (records iterated : list record) :
  NoDup (map rec_id (records ++ iterated)) ->
  append_new records iterated = records ++ iterated.
Proof.
  revert records. induction iterated as [|r rest IH]; intros records Hnodup; simpl.
  - by rewrite app_nil_r.
  - assert (existsb (record_eq r) records = false) as ->.
    { apply not_true_iff_false. intros (e & He & Heq%record_eq_same_id)%existsb_exists.
      rewrite map_app in Hnodup. apply NoDup_app in Hnodup as (_ & Hdisjoint & _).
      apply (Hdisjoint (rec_id e)).
      - apply list_elem_of_In, in_map, He.
      - rewrite <- Heq. simpl. by left. }
    rewrite IH; rewrite <- app_assoc; done.
Qed.

Lemma append_new_app (records l1 l2 : list record) :
  append_new records (l1 ++ l2) = append_new (append_new records l1) l2.
Proof. revert records. induction l1 as [|r l1 IH]; intros records; simpl; [done|apply IH]. Qed.

Lemma append_new_by_id_present (records iterated : list record) :
  incl iterated records -> append_new_by_id records iterated = records.
Proof.
  induction iterated as [|r rest IH]; simpl; [done|]. intros Hincl.
  assert (existsb (fun e => String.eqb (rec_id e) (rec_id r)) records = true) as ->.
  { apply existsb_exists. exists r. split; [apply Hincl; by left | apply String.eqb_refl]. }
  apply IH. intros e He. apply Hincl. by right.
Qed.

Lemma append_new_by_id_fresh (records iterated : list record) :
  NoDup (map rec_id (records ++ iterated)) ->
  append_new_by_id records iterated = records ++ iterated.
Proof.
  revert records. induction iterated as [|r rest IH]; intros records Hnodup; simpl.
  - by rewrite app_nil_r.
  - assert (existsb (fun e => String.eqb (rec_id e) (rec_id r)) records = false) as ->.
    { apply not_true_iff_false. intros (e & He & Heq%String.eqb_eq)%existsb_exists.
      rewrite map_app in Hnodup. apply NoDup_app in Hnodup as (_ & Hdisjoint & _).
      apply (Hdisjoint (rec_id e)).
      - apply list_elem_of_In, in_map, He.
      - rewrite Heq. simpl. by left. }
    rewrite IH; rewrite <- app_assoc; done.
Qed.

Lemma append_new_by_id_app (records l1 l2 : list record) :
  append_new_by_id records (l1 ++ l2)
  = append_new_by_id (append_new_by_id records l1) l2.
Proof. revert records. induction l1 as [|r l1 IH]; intros records; simpl; [done|apply IH]. Qed.

(** A first page followed by the whole table gives the table. *)
Lemma append_new_first_page (tbl : list record) (k : nat) :
  NoDup (map rec_id tbl) ->
  append_new (take k tbl) tbl = tbl /\ append_new_by_id (take k tbl) tbl = tbl.
Proof.
  intros Hnodup.
  assert (NoDup (map rec_id (take k tbl ++ drop k tbl))) as Hparts
    by (by rewrite take_drop).
  split.
  - transitivity (append_new (take k tbl) (take k tbl ++ drop k tbl));
      [by rewrite take_drop|].
    rewrite append_new_app.
    rewrite (append_new_present (take k tbl) (take k tbl)) by apply incl_refl.
    rewrite append_new_fresh by done.
    apply take_drop.
  - transitivity (append_new_by_id (take k tbl) (take k tbl ++ drop k tbl));
      [by rewrite take_drop|].
    rewrite append_new_by_id_app.
    rewrite (append_new_by_id_present (take k tbl) (take k tbl)) by apply incl_refl.
    rewrite append_new_by_id_fresh by done.
    apply take_drop.
Qed.


Lemma rmap_fields_item (records : list record) :
  Forall (fun r => is_Some (rec_fields r)) records ->
  rmap fields_item records = Ok (map record_fields records).
Proof.
  induction 1 as [|r records [fields Hr] _ IH]; simpl; [done|].
  rewrite IH. unfold fields_item, record_fields. by rewrite Hr.
Qed.




(** ** Reconciling two tables *)

Lemma length_string_append (s t : string) :
  String.length (s +:+ t) = String.length s + String.length t.
Proof. induction s as [|a s IH]; simpl; [done | by rewrite IH]. Qed.

Lemma string_append_cancel_r (s1 s2 t : string) : s1 +:+ t = s2 +:+ t -> s1 = s2.
Proof.
  intros Heq.
  assert (String.length s1 = String.length s2) as Hlen.
  { apply (f_equal String.length) in Heq. rewrite !length_string_append in Heq. lia. }
  revert s2 Heq Hlen. induction s1 as [|a s1 IH]; intros [|b s2] Heq Hlen; try done.
  cbn in Heq, Hlen. injection Heq as -> Heq. injection Hlen as Hlen.
  by rewrite (IH s2 Heq Hlen).
Qed.

(** Two join keys are equal with equal ids only if the names are equal, and
    with equal names only if the ids are equal. *)
Lemma join_key_agree (id name cid cname : string) :
  (id +:+ " | ") +:+ name = (cid +:+ " | ") +:+ cname ->
  String.eqb id cid = String.eqb name cname.
Proof.
  intros Hkey.
  destruct (String.eqb_spec id cid) as [->|Hid], (String.eqb_spec name cname)
    as [->|Hname]; try done.
  - by apply String.app_inj in Hkey.
  - by do 2 apply string_append_cancel_r in Hkey.
Qed.

(** What [get_table] returns on a service that answers from its tables. *)
Lemma get_table_service (tables : string -> list record) (schema : list table_schema)
    (update_reply : api_reply (gmap string value)) (post_reply : http_reply string)
    (table_id : string) :
  Forall (fun r => is_Some (rec_fields r)) (tables table_id) ->
  get_table (service tables schema update_reply post_reply) table_id
  = Ok (frame_reindexed (map record_fields (tables table_id))
          (all_columns_of schema table_id)).
Proof.
  intros Hfields. unfold get_table, collect_records, get_base_schema. simpl. py_unfold.
  destruct (tables table_id) as [|r rest] eqn:Htables.
  - done.
  - cbn [payload]. rewrite append_new_present by apply incl_refl.
    cbn [payload]. by rewrite rmap_fields_item.
Qed.

Lemma client_frame (record_id id name : string) :
  frame_reindexed [record_fields (client_row record_id id name)] ["id"; "name"]
  = {| columns := ["id"; "name"]; rows := [[VStr id; VStr name]] |}.
Proof.
  unfold frame_reindexed, client_row, mk_record, record_fields, dict_get. simpl.
  rewrite lookup_insert_eq.
  rewrite lookup_insert_ne by done. by rewrite lookup_insert_eq.
Qed.

Lemma append_cons (a : ascii) (s t : string) : String a s +:+ t = String a (s +:+ t).
Proof. reflexivity. Qed.

Lemma append_nil (t : string) : "" +:+ t = t.
Proof. reflexivity. Qed.

(** One step of evaluation of the row-wise comparison on explicit rows. *)
Ltac reconcile_step :=
  unfold apply_rows, keep_if_equal; py_unfold; cbn;
  rewrite ?append_cons, ?append_nil; cbn.

(** C1 (amended): for a main table with the one row (id, name) and a
    checking table with the one row (cid, cname), [get_client_database]
    returns one row that keeps both the id and the name when the checking
    row agrees on both, and has both set to null otherwise, because a row
    that differs in either field has a different join key and finds no
    partner.  So main row A1/Bob against checking row A1/Robert gives null
    for the name and for the id, and against checking row A1/Bob keeps
    both. *)
Theorem reconcile_all_or_nothing :
  (forall id name cid cname : string,
     get_client_database
       (reconcile_service [client_row "rec1" id name] [client_row "rec2" cid cname])
       "main" "checking" "id" "name"
     = Ok {| columns := ["index"; "name"; "id"];
             rows := [[ VStr ((id +:+ " | ") +:+ name);
                        if String.eqb id cid && String.eqb name cname
                        then VStr name else VNone;
                        if String.eqb id cid && String.eqb name cname
                        then VStr id else VNone ]] |})
  /\ get_client_database
       (reconcile_service [client_row "rec1" "A1" "Bob"] [client_row "rec2" "A1" "Robert"])
       "main" "checking" "id" "name"
     = Ok {| columns := ["index"; "name"; "id"];
             rows := [[VStr "A1 | Bob"; VNone; VNone]] |}
  /\ get_client_database
       (reconcile_service [client_row "rec1" "A1" "Bob"] [client_row "rec2" "A1" "Bob"])
       "main" "checking" "id" "name"
     = Ok {| columns := ["index"; "name"; "id"];
             rows := [[VStr "A1 | Bob"; VStr "Bob"; VStr "A1"]] |}.
Proof.
  assert (forall id name cid cname : string,
     get_client_database
       (reconcile_service [client_row "rec1" id name] [client_row "rec2" cid cname])
       "main" "checking" "id" "name"
     = Ok {| columns := ["index"; "name"; "id"];
             rows := [[ VStr ((id +:+ " | ") +:+ name);
                        if String.eqb id cid && String.eqb name cname
                        then VStr name else VNone;
                        if String.eqb id cid && String.eqb name cname
                        then VStr id else VNone ]] |}) as Hgeneral.
  { intros id name cid cname.
    unfold get_client_database, reconcile_service.
    rewrite !get_table_service
      by (repeat (apply List.Forall_cons; [by eexists|]); apply List.Forall_nil).
    py_unfold.
    cbn [String.eqb Ascii.eqb Bool.eqb all_columns_of reconcile_schema ts_id ts_fields map].
    rewrite !client_frame. cbn.
    destruct (String.eqb_spec ((id +:+ " | ") +:+ name) ((cid +:+ " | ") +:+ cname))
      as [Hkey|Hkey]; cbn.
    - pose proof (join_key_agree _ _ _ _ Hkey) as Hagree.
      destruct (String.eqb id cid) eqn:Hid, (String.eqb name cname) eqn:Hname;
        try discriminate Hagree;
        reconcile_step; rewrite ?Hid, ?Hname; cbn; rewrite ?Hid, ?Hname; done.
    - assert (String.eqb id cid && String.eqb name cname = false) as ->.
      { apply not_true_iff_false.
        intros [->%String.eqb_eq ->%String.eqb_eq]%andb_true_iff. done. }
      reconcile_step. done. }
  split; [exact Hgeneral|]. split; apply Hgeneral.
Qed.

(** C1, as stated, fails: with main row A1/Bob and checking row A1/Robert
    the id of the output row is null, not "A1". *)
Lemma reconcile_mismatch_nulls_id :
  (df ← get_client_database
          (reconcile_service [client_row "rec1" "A1" "Bob"]
             [client_row "rec2" "A1" "Robert"])
          "main" "checking" "id" "name";
   getitem df "id") = Ok [VNone]
  /\ (df ← get_client_database
             (reconcile_service [client_row "rec1" "A1" "Bob"]
                [client_row "rec2" "A1" "Robert"])
             "main" "checking" "id" "name";
      getitem df "id") <> Ok [VStr "A1"].
Proof. split; [vm_compute; reflexivity | vm_compute; discriminate]. Qed.

(** ** Credentials *)

Lemma split_char_nonempty (sep : ascii) (s : string) : split_char sep s <> [].
Proof.
  destruct s as [|c s]; simpl; [done|].
  destruct (Ascii.eqb c sep); [done|]. by destruct (split_char sep s).
Qed.

(** Text without the separator is one piece. *)
Lemma split_char_whole (sep : ascii) (s : string) :
  has_char sep s = false -> split_char sep s = [s].
Proof.
  unfold has_char. induction s as [|c s IH]; simpl; [done|].
  intros [Hc Hs]%orb_false_iff. rewrite Ascii.eqb_sym in Hc. rewrite Hc.
  by rewrite IH.
Qed.

(** A piece ends at the first separator. *)
Lemma split_char_first (sep : ascii) (a rest : string) :
  has_char sep a = false ->
  split_char sep (a +:+ String sep rest) = a :: split_char sep rest.
Proof.
  unfold has_char. induction a as [|c a IH]; simpl.
  - intros _. rewrite ?append_nil. simpl. by rewrite Ascii.eqb_refl.
  - intros [Hc Ha]%orb_false_iff. rewrite Ascii.eqb_sym in Hc.
    rewrite ?append_cons. simpl. rewrite Hc. by rewrite IH.
Qed.

(** X1: an environment string [base_id B,access_token T] gives back exactly
    [B] and [T], whatever they contain besides commas (spaces included). *)
Theorem credentials_round_trip (b t : string) :
  has_char "," b = false ->
  has_char "," t = false ->
  get_airtable_credentials
    (Some (("base_id " +:+ b) +:+ String "," ("access_token " +:+ t)))
  = Got {| cred_base_id := Some b; cred_access_token := Some t |}.
Proof.
  intros Hb Ht. unfold get_airtable_credentials, creds_list_of, default. cbn [from_option id].
  rewrite split_char_first by (rewrite !append_cons, append_nil; exact Hb).
  rewrite split_char_whole by (rewrite !append_cons, append_nil; exact Ht).
  rewrite !append_cons, !append_nil. cbn. done.
Qed.

Lemma credentials_round_trip_witness :
  get_airtable_credentials
    (Some (("base_id " +:+ "app 1") +:+ String "," ("access_token " +:+ "pat.X y")))
  = Got {| cred_base_id := Some "app 1"; cred_access_token := Some "pat.X y" |}.
Proof. apply (credentials_round_trip "app 1" "pat.X y"); reflexivity. Defined.

(** X2: when the same key is given twice, the first entry decides. *)
Theorem credentials_first_entry_wins (b1 b2 t : string) :
  has_char "," b1 = false ->
  has_char "," b2 = false ->
  has_char "," t = false ->
  get_airtable_credentials
    (Some (("base_id " +:+ b1) +:+ String ","
             (("base_id " +:+ b2) +:+ String "," ("access_token " +:+ t))))
  = Got {| cred_base_id := Some b1; cred_access_token := Some t |}.
Proof.
  intros Hb1 Hb2 Ht. unfold get_airtable_credentials, creds_list_of, default. cbn [from_option id].
  rewrite split_char_first by (rewrite !append_cons, append_nil; exact Hb1).
  rewrite split_char_first by (rewrite !append_cons, append_nil; exact Hb2).
  rewrite split_char_whole by (rewrite !append_cons, append_nil; exact Ht).
  rewrite !append_cons, !append_nil. cbn. done.
Qed.

Lemma credentials_first_entry_wins_witness :
  get_airtable_credentials
    (Some (("base_id " +:+ "appOne") +:+ String ","
             (("base_id " +:+ "appTwo") +:+ String "," ("access_token " +:+ "pat"))))
  = Got {| cred_base_id := Some "appOne"; cred_access_token := Some "pat" |}.
Proof. apply (credentials_first_entry_wins "appOne" "appTwo" "pat"); reflexivity. Defined.


(** X4: on an environment that parses, a non-empty argument of the
    constructor is used as it is, and an absent or empty argument is
    replaced by the value of the environment. *)
Theorem init_prefers_arguments (AIRTABLE_CREDS : option string)
    (from_env : credentials) (b t : string) :
  get_airtable_credentials AIRTABLE_CREDS = Got from_env ->
  b <> "" -> t <> "" ->
  init (Some b) (Some t) AIRTABLE_CREDS = Got (Some b, Some t)
  /\ init (Some b) None AIRTABLE_CREDS = Got (Some b, cred_access_token from_env)
  /\ init (Some "") (Some t) AIRTABLE_CREDS = Got (cred_base_id from_env, Some t)
  /\ init None None AIRTABLE_CREDS
     = Got (cred_base_id from_env, cred_access_token from_env).
Proof.
  intros Henv Hb Ht. unfold init, or_else. rewrite Henv.
  apply String.eqb_neq in Hb, Ht. rewrite Hb, Ht. done.
Qed.

Lemma init_prefers_arguments_witness :
  init (Some "appArg") (Some "patArg") (Some "base_id appEnv,access_token patEnv")
  = Got (Some "appArg", Some "patArg")
  /\ init (Some "appArg") None (Some "base_id appEnv,access_token patEnv")
     = Got (Some "appArg", Some "patEnv")
  /\ init (Some "") (Some "patArg") (Some "base_id appEnv,access_token patEnv")
     = Got (Some "appEnv", Some "patArg")
  /\ init None None (Some "base_id appEnv,access_token patEnv")
     = Got (Some "appEnv", Some "patEnv").
Proof.
  apply (init_prefers_arguments (Some "base_id appEnv,access_token patEnv")
           {| cred_base_id := Some "appEnv"; cred_access_token := Some "patEnv" |}
           "appArg" "patArg"); [reflexivity | discriminate | discriminate].
Defined.

(** ** What the matcher and the verifier may do *)

Section Safety.

Variable nfkc : string -> string.

Lemma scan_record_id_first (id_column name_column : string) (query : string * string)
    (records : list record) (record_id : string) :
  scan_record_id nfkc id_column name_column query records = Ok (Some record_id) ->
  exists pre r post,
    records = pre ++ r :: post
    /\ rec_id r = record_id
    /\ matches_contained nfkc id_column name_column query r = true
    /\ Forall (fun p => matches_contained nfkc id_column name_column query p = false) pre.
Proof.
  induction records as [|r rest IH]; simpl; [done|]. py_unfold.
  destruct (record_id_hit nfkc id_column name_column query r) as [b|] eqn:Hhit; [|done].
  apply record_id_hit_sound in Hhit. destruct b.
  - intros [= <-]. exists [], r, rest. by repeat split.
  - intros (pre & r' & post & -> & Hid & Hm & Hpre)%IH.
    exists (r :: pre), r', post. repeat split; [done..|]. by constructor.
Qed.

(** X5: an identifier [get_record_id] returns is that of the first record
    of the table that matches on normalised name and contained id; the query
    text is compared as typed, only the stored name is normalised; and the
    method makes one read and no write. *)
Theorem get_record_id_sound (self : GetAirTables)
    (table_id id_column name_column : string) (query : string * string)
    (record_id : string) :
  outcome (get_record_id nfkc self table_id id_column name_column query)
    = Ok (Some record_id) ->
  (exists pre r post,
      at_get self table_id [name_column; id_column] = Reply (pre ++ r :: post)
      /\ rec_id r = record_id
      /\ (exists stored, dict_get (record_fields r) name_column = VStr stored
                         /\ nfkc stored = query.1)
      /\ id_contains id_column query.2 r = true
      /\ Forall (fun p => matches_contained nfkc id_column name_column query p = false)
           pre)
  /\ trace (get_record_id nfkc self table_id id_column name_column query)
     = [AtGet table_id [name_column; id_column]].
Proof.
  rewrite get_record_id_unfold. simpl.
  destruct (at_get self table_id [name_column; id_column]) as [records| |]; simpl; try done.
  destruct (scan_record_id _ _ _ _ _) as [found|e] eqn:Hscan; simpl; [|done].
  intros [= ->]. split; [|done].
  apply scan_record_id_first in Hscan as (pre & r & post & -> & Hid & Hm & Hpre).
  exists pre, r, post. repeat split; try done.
  - apply andb_true_iff in Hm as [Hname _]. unfold text_field_is in Hname.
    destruct (dict_get (record_fields r) name_column) as [| | |stored|]; try done.
    exists stored. split; [done|].
    by apply andb_true_iff in Hname as [_ ?%String.eqb_eq].
  - by apply andb_true_iff in Hm as [_ ?].
Qed.

(** What the loop of the verifier writes, at most. *)
Lemma scan_and_update_writes (self : GetAirTables)
    (table_id name_column id_column update_column : string) (query : string * string)
    (records : list record) :
  let scan := scan_and_update nfkc self table_id name_column id_column update_column
                query records in
  List.filter is_write (trace scan) = []
  \/ exists pre r post accepted,
       records = pre ++ r :: post
       /\ Forall (fun p => matches_exactly nfkc name_column id_column query p = false) pre
       /\ matches_exactly nfkc name_column id_column query r = true
       /\ truthy (update_flag update_column r) = false
       /\ List.filter is_write (trace scan)
          = [AtUpdate table_id (rec_id r) {[ update_column := VBool true ]} accepted].
Proof.
  induction records as [|r rest IH]; [by left|].
  destruct (passes_verifier name_column id_column r) eqn:Hpass.
  - destruct (matches_exactly nfkc name_column id_column query r) eqn:Hm.
    + cbv zeta. rewrite scan_and_update_at_match by done.
      destruct (truthy (update_flag update_column r)) eqn:Hflag; [by left|].
      right. exists [], r, rest.
      exists (accepted_reply
                (at_update self table_id (rec_id r) {[ update_column := VBool true ]})).
      repeat split; try done. cbv zeta.
      destruct (at_update self table_id (rec_id r) _) as [response_fields| |]; try done.
      by destruct (response_fields !! name_column).
    + cbv zeta. change (r :: rest) with ([r] ++ rest).
      rewrite (scan_and_update_skip nfkc self table_id name_column id_column
                 update_column query [r] rest) by (by repeat constructor).
      destruct IH as [Hnone|(pre & r' & post & accepted & -> & Hpre & Hr' & Hflag & Hw)].
      * by left.
      * right. exists (r :: pre), r', post, accepted. repeat split; try done.
        by constructor.
  - left. simpl. py_unfold. by rewrite update_hit_rejects.
Qed.

(** X6: whatever the table and the answers of the service,
    [verify_and_update] posts no comment and makes at most one write; a
    write it makes sets the update column to true on the first record that
    matches on normalised name and id, and only when that record's flag is
    falsy. *)
Theorem verify_and_update_writes_only_first_match (self : GetAirTables)
    (table_id name_column id_column update_column : string) (query : string * string) :
  let done := verify_and_update nfkc self table_id name_column id_column update_column
                query in
  List.filter is_comment (trace done) = []
  /\ length (List.filter is_update (trace done)) <= 1
  /\ (forall e, In e (trace done) -> is_update e = true ->
      exists pre r post accepted,
        at_get self table_id [name_column; id_column; update_column]
          = Reply (pre ++ r :: post)
        /\ Forall (fun p => matches_exactly nfkc name_column id_column query p = false) pre
        /\ matches_exactly nfkc name_column id_column query r = true
        /\ truthy (update_flag update_column r) = false
        /\ e = AtUpdate table_id (rec_id r) {[ update_column := VBool true ]} accepted).
Proof.
  intros done. subst done. rewrite verify_and_update_unfold.
  destruct (at_get self table_id [name_column; id_column; update_column])
    as [records| |] eqn:Hget; simpl;
    try (split; [done|]; split; [lia|]; by intros e [<-|[<-|[]]]).
  pose proof (scan_and_update_writes self table_id name_column id_column update_column
                query records) as Hwrites. cbv zeta in Hwrites.
  set (scan := scan_and_update nfkc self table_id name_column id_column update_column
                 query records) in *.
  assert (forall tail, List.filter is_write tail = [] ->
            List.filter is_write (AtGet table_id [name_column; id_column; update_column]
                                    :: trace scan ++ tail)
            = List.filter is_write (trace scan)) as Hframe.
  { intros tail Htail. simpl. by rewrite List.filter_app, Htail, app_nil_r. }
  assert (forall l, List.filter is_write l = [] ->
            List.filter is_comment l = [] /\ List.filter is_update l = []
            /\ forall e, In e l -> is_update e = true -> False) as Hnone.
  { induction l as [|e l IHl]; simpl; [done|]. unfold is_write at 1.
    destruct (is_update e) eqn:Hu, (is_comment e) eqn:Hc; simpl; try done.
    intros Hl. destruct (IHl Hl) as (? & ? & Hin). repeat split; try done.
    intros e' [<-|He'] Hue'; [congruence | by eapply Hin]. }
  assert (forall l e0, List.filter is_write l = [e0] -> is_update e0 = true ->
            List.filter is_comment l = [] /\ List.filter is_update l = [e0]
            /\ forall e, In e l -> is_update e = true -> e = e0) as Hone.
  { induction l as [|e l IHl]; simpl; [done|]. intros e0. unfold is_write at 1.
    destruct (is_update e) eqn:Hu, (is_comment e) eqn:Hc; simpl.
    - by destruct e.
    - intros [= -> Hl] _. destruct (Hnone l Hl) as (? & Hupd & Hin).
      rewrite Hupd. repeat split; try done.
      intros e' [<-|He'] Hue'; [done | by destruct (Hin e' He' Hue')].
    - intros [= -> Hl] He0. congruence.
    - intros Hl He0. destruct (IHl e0 Hl He0) as (? & ? & Hin). repeat split; try done.
      intros e' [<-|He'] Hue'; [congruence | by apply Hin]. }
  set (full := match outcome scan with
               | Ok found =>
                   IO (Ok found)
                     (AtGet table_id [name_column; id_column; update_column] :: trace scan)
               | Raise e =>
                   IO (Ok false)
                     (AtGet table_id [name_column; id_column; update_column]
                        :: trace scan ++ [Print (ErrorCheckingUpdate e)])
               end).
  assert (List.filter is_write (trace full) = List.filter is_write (trace scan)) as Hfull.
  { subst full. destruct (outcome scan); simpl.
    - rewrite <- (app_nil_r (trace scan)) at 1. by apply (Hframe []).
    - by apply (Hframe [Print (ErrorCheckingUpdate e)]). }
  destruct Hwrites as [Hw|(pre & r & post & accepted & -> & Hpre & Hr & Hflag & Hw)];
    rewrite <- Hfull in Hw.
  - destruct (Hnone _ Hw) as (Hc & Hu & Hin). rewrite Hc, Hu. repeat split; [simpl; lia|].
    intros e He Hue. by destruct (Hin e He Hue).
  - destruct (Hone _ _ Hw eq_refl) as (Hc & Hu & Hin). rewrite Hc, Hu.
    repeat split; [simpl; lia|].
    intros e He Hue. exists pre, r, post, accepted. repeat split; try done.
    by apply Hin.
Qed.

End Safety.

Lemma get_record_id_sound_witness :
  (exists pre r post,
      at_get (service (fun _ => pending_clients) [] Raises ConnectionError)
        "clients" ["Name"; "Id"] = Reply (pre ++ r :: post)
      /\ rec_id r = "rec2"
      /\ (exists stored, dict_get (record_fields r) "Name" = VStr stored
                         /\ nfkc_sample stored = "Bob")
      /\ id_contains "Id" "X1" r = true
      /\ Forall (fun p => matches_contained nfkc_sample "Id" "Name" ("Bob", "X1") p = false)
           pre)
  /\ trace (get_record_id nfkc_sample
              (service (fun _ => pending_clients) [] Raises ConnectionError)
              "clients" "Id" "Name" ("Bob", "X1"))
     = [AtGet "clients" ["Name"; "Id"]].
Proof.
  apply (get_record_id_sound nfkc_sample
           (service (fun _ => pending_clients) [] Raises ConnectionError)
           "clients" "Id" "Name" ("Bob", "X1") "rec2").
  vm_compute. reflexivity.
Defined.

Lemma verify_and_update_writes_only_first_match_witness :
  exists pre r post accepted,
    at_get (service (fun _ => pending_clients) []
              (Reply (list_to_map [("Name", VStr "Bob")])) ConnectionError)
      "clients" ["Name"; "Id"; "Done"] = Reply (pre ++ r :: post)
    /\ Forall (fun p => matches_exactly nfkc_sample "Name" "Id" ("Bob", "X1") p = false) pre
    /\ matches_exactly nfkc_sample "Name" "Id" ("Bob", "X1") r = true
    /\ truthy (update_flag "Done" r) = false
    /\ AtUpdate "clients" "rec2" {[ "Done" := VBool true ]} true
       = AtUpdate "clients" (rec_id r) {[ "Done" := VBool true ]} accepted.
Proof.
  apply (proj2 (proj2 (verify_and_update_writes_only_first_match nfkc_sample
           (service (fun _ => pending_clients) []
              (Reply (list_to_map [("Name", VStr "Bob")])) ConnectionError)
           "clients" "Name" "Id" "Done" ("Bob", "X1")))
           (AtUpdate "clients" "rec2" {[ "Done" := VBool true ]} true)).
  - vm_compute. right. left. reflexivity.
  - reflexivity.
Defined.

(** ** The update verifier *)

Lemma lookup_middle_map {A B} (f : A -> B) (pre post : list A) (x : A) :
  map f (pre ++ x :: post) !! length pre = Some (f x).
Proof.
  rewrite map_app. simpl.
  rewrite lookup_app_r by (by rewrite length_map).
  by rewrite length_map, Nat.sub_diag.
Qed.

Section VerifierReports.

Variable nfkc : string -> string.

(** X7: a record whose flag is truthy without being the boolean true (a
    number, a text) is treated as done by [verify_and_update], which returns
    true and writes nothing, while [verify_update_tables] reports it as
    pending; as nothing is written it stays so. *)
Theorem truthy_flag_stays_pending (self : GetAirTables)
    (table_id name_column id_column update_column : string) (query : string * string)
    (pre post : list record) (r : record) :
  at_get self table_id [name_column; id_column; update_column] = Reply (pre ++ r :: post) ->
  Forall (fun p => passes_verifier name_column id_column p = true
                   /\ matches_exactly nfkc name_column id_column query p = false) pre ->
  matches_exactly nfkc name_column id_column query r = true ->
  truthy (update_flag update_column r) = true ->
  update_flag update_column r <> VBool true ->
  let done := verify_and_update nfkc self table_id name_column id_column update_column
                query in
  outcome done = Ok true
  /\ List.filter is_write (trace done) = []
  /\ exists lines line,
       verify_update_tables self table_id name_column id_column update_column = Ok lines
       /\ lines !! length pre = Some line
       /\ line_status line = Pending.
Proof.
  intros Hget Hpre Hm Hflag Hnot done. subst done.
  rewrite (verify_and_update_at_first_match nfkc self table_id name_column id_column
             update_column query pre post r Hget Hpre).
  rewrite scan_and_update_at_match by done. rewrite Hflag. simpl.
  split; [done|]. split; [done|].
  unfold verify_update_tables. rewrite Hget.
  eexists _, _. split; [done|]. split; [apply lookup_middle_map|].
  unfold status_line_of. simpl. fold (record_fields r).
  unfold update_flag, dict_get_default in Hnot, Hflag. unfold dict_get.
  destruct (record_fields r !! update_column) as [[|[|]| | |]|]; simpl in *; done.
Qed.

(** X8: once the service has accepted the write of [verify_and_update],
    whatever it answered, [verify_update_tables] on the table the service
    then holds reports the matched record as updated. *)
Theorem verify_and_update_then_reported (self after : GetAirTables)
    (table_id name_column id_column update_column : string) (query : string * string)
    (pre post : list record) (r : record) (response_fields : gmap string value) :
  at_get self table_id [name_column; id_column; update_column] = Reply (pre ++ r :: post) ->
  Forall (fun p => passes_verifier name_column id_column p = true
                   /\ matches_exactly nfkc name_column id_column query p = false) pre ->
  matches_exactly nfkc name_column id_column query r = true ->
  truthy (update_flag update_column r) = false ->
  at_update self table_id (rec_id r) {[ update_column := VBool true ]}
    = Reply response_fields ->
  at_get after table_id [name_column; id_column; update_column]
    = Reply (table_after table_id
               (trace (verify_and_update nfkc self table_id name_column id_column
                         update_column query))
               (pre ++ r :: post)) ->
  exists lines line,
    verify_update_tables after table_id name_column id_column update_column = Ok lines
    /\ length lines = length (pre ++ r :: post)
    /\ lines !! length pre = Some line
    /\ line_status line = Updated.
Proof.
  intros Hget Hpre Hm Hflag Hupdate.
  rewrite (verify_and_update_at_first_match nfkc self table_id name_column id_column
             update_column query pre post r Hget Hpre).
  rewrite scan_and_update_at_match by done. rewrite Hflag. cbv zeta. rewrite Hupdate.
  assert (forall tail,
            table_after table_id
              (AtGet table_id [name_column; id_column; update_column]
                 :: AtUpdate table_id (rec_id r) {[ update_column := VBool true ]} true
                 :: tail) (pre ++ r :: post)
            = table_after table_id tail
                (map (apply_update (rec_id r) {[ update_column := VBool true ]})
                   (pre ++ r :: post))) as Hafter.
  { intros tail. simpl. by rewrite String.eqb_refl. }
  assert (at_get after table_id [name_column; id_column; update_column]
          = Reply (map (apply_update (rec_id r) {[ update_column := VBool true ]})
                     (pre ++ r :: post)) ->
          exists lines line,
            verify_update_tables after table_id name_column id_column update_column
              = Ok lines
            /\ length lines = length (pre ++ r :: post)
            /\ lines !! length pre = Some line
            /\ line_status line = Updated) as Hreport.
  { intros Hnow. unfold verify_update_tables. rewrite Hnow.
    eexists _, _. split; [done|]. split; [by rewrite !length_map|].
    split.
    - rewrite <- (length_map (apply_update (rec_id r) {[ update_column := VBool true ]}) pre).
      rewrite map_app. simpl. apply lookup_middle_map.
    - unfold status_line_of, apply_update. rewrite String.eqb_refl. simpl.
      unfold dict_get.
      by rewrite (lookup_union_Some_l _ _ _ (VBool true))
        by apply lookup_singleton_eq. }
  destruct (response_fields !! name_column); simpl trace; rewrite Hafter; exact Hreport.
Qed.

(** X9: the matcher tests containment where the verifier tests equality: a
    record whose id field is a text that contains the query id without
    normalising to it is returned by [get_record_id], and on the same table
    and query [verify_and_update] finds no record, writes nothing and returns
    false. *)
Theorem containment_versus_equality (self : GetAirTables)
    (table_id name_column id_column update_column : string) (query : string * string)
    (r : record) (stored_id : string) :
  at_get self table_id [name_column; id_column] = Reply [r] ->
  at_get self table_id [name_column; id_column; update_column] = Reply [r] ->
  text_field_is nfkc name_column query.1 r = true ->
  dict_get (record_fields r) id_column = VStr stored_id ->
  str_contains query.2 stored_id = true ->
  nfkc stored_id <> query.2 ->
  outcome (get_record_id nfkc self table_id id_column name_column query)
    = Ok (Some (rec_id r))
  /\ verify_and_update nfkc self table_id name_column id_column update_column query
     = IO (Ok false) [AtGet table_id [name_column; id_column; update_column];
                      Print (RecordNotFound query)].
Proof.
  intros Hmatcher Hverifier Hname Hid Hin Hneq. split.
  - rewrite get_record_id_unfold, Hmatcher. simpl. py_unfold.
    rewrite record_id_hit_passes.
    + unfold matches_contained, id_contains. by rewrite Hname, Hid, Hin.
    + unfold passes_matcher. rewrite Hid, Hname. apply andb_true_iff. split; [|done].
      unfold text_field_is in Hname.
      by destruct (dict_get (record_fields r) name_column).
  - assert (matches_exactly nfkc name_column id_column query r = false) as Hno.
    { unfold matches_exactly. rewrite Hname. unfold text_field_is. rewrite Hid.
      apply String.eqb_neq in Hneq. by rewrite Hneq, andb_false_r. }
    assert (passes_verifier name_column id_column r = true) as Hpass.
    { unfold passes_verifier. rewrite Hid. apply andb_true_iff. split; [|done].
      unfold text_field_is in Hname.
      by destruct (dict_get (record_fields r) name_column). }
    rewrite verify_and_update_unfold, Hverifier. cbn [payload].
    change [r] with ([r] ++ []).
    by rewrite (scan_and_update_skip nfkc self table_id name_column id_column
                  update_column query [r] []) by (by repeat constructor).
Qed.

End VerifierReports.

Lemma truthy_flag_stays_pending_witness :
  let done := verify_and_update nfkc_sample
                (service (fun _ => numeric_flag_clients) [] Raises ConnectionError)
                "clients" "Name" "Id" "Done" ("Bob", "X1") in
  outcome done = Ok true
  /\ List.filter is_write (trace done) = []
  /\ exists lines line,
       verify_update_tables
         (service (fun _ => numeric_flag_clients) [] Raises ConnectionError)
         "clients" "Name" "Id" "Done" = Ok lines
       /\ lines !! 1 = Some line
       /\ line_status line = Pending.
Proof.
  apply (truthy_flag_stays_pending nfkc_sample
           (service (fun _ => numeric_flag_clients) [] Raises ConnectionError)
           "clients" "Name" "Id" "Done" ("Bob", "X1")
           [mk_record "rec1" [("Name", VStr "Ann"); ("Id", VStr "X0")]] []
           (mk_record "rec2" [("Name", VStr "Bob"); ("Id", VStr "X1"); ("Done", VNum 1)])).
  - reflexivity.
  - forall_records.
  - vm_compute. reflexivity.
  - vm_compute. reflexivity.
  - vm_compute. discriminate.
Defined.

Lemma verify_and_update_then_reported_witness :
  exists lines line,
    verify_update_tables
      (service
         (fun _ =>
            table_after "clients"
              (trace (verify_and_update nfkc_sample
                        (service (fun _ => pending_clients) []
                           (Reply (list_to_map [("Done", VBool true)])) ConnectionError)
                        "clients" "Name" "Id" "Done" ("Bob", "X1")))
              pending_clients)
         [] Raises ConnectionError)
      "clients" "Name" "Id" "Done" = Ok lines
    /\ length lines = 2
    /\ lines !! 1 = Some line
    /\ line_status line = Updated.
Proof.
  apply (verify_and_update_then_reported nfkc_sample
           (service (fun _ => pending_clients) []
              (Reply (list_to_map [("Done", VBool true)])) ConnectionError)
           (service
              (fun _ =>
                 table_after "clients"
                   (trace (verify_and_update nfkc_sample
                             (service (fun _ => pending_clients) []
                                (Reply (list_to_map [("Done", VBool true)]))
                                ConnectionError)
                             "clients" "Name" "Id" "Done" ("Bob", "X1")))
                   pending_clients)
              [] Raises ConnectionError)
           "clients" "Name" "Id" "Done" ("Bob", "X1")
           [mk_record "rec1" [("Name", VStr "Ann"); ("Id", VStr "X0")]] []
           (mk_record "rec2" [("Name", VStr "Bob"); ("Id", VStr "X1")])
           (list_to_map [("Done", VBool true)])).
  - reflexivity.
  - forall_records.
  - vm_compute. reflexivity.
  - vm_compute. reflexivity.
  - reflexivity.
  - reflexivity.
Defined.

Lemma containment_versus_equality_witness :
  outcome (get_record_id nfkc_sample
             (service (fun _ => [long_id_client]) [] Raises ConnectionError)
             "clients" "Id" "Name" ("Bob", "X1")) = Ok (Some "rec7")
  /\ verify_and_update nfkc_sample
       (service (fun _ => [long_id_client]) [] Raises ConnectionError)
       "clients" "Name" "Id" "Done" ("Bob", "X1")
     = IO (Ok false) [AtGet "clients" ["Name"; "Id"; "Done"];
                      Print (RecordNotFound ("Bob", "X1"))].
Proof.
  apply (containment_versus_equality nfkc_sample
           (service (fun _ => [long_id_client]) [] Raises ConnectionError)
           "clients" "Name" "Id" "Done" ("Bob", "X1") long_id_client "X10").
  - reflexivity.
  - reflexivity.
  - vm_compute. reflexivity.
  - vm_compute. reflexivity.
  - vm_compute. reflexivity.
  - vm_compute. discriminate.
Defined.

(** ** The comments of a table *)

Lemma collect_comments_all_answered
    (requests_get : string -> string -> http_reply (option (list (gmap string value))))
    (table_id : string) (records : list record) (all_comments : list (gmap string value)) :
  Forall (fun r => answered_ok requests_get table_id r = true) records ->
  collect_comments requests_get table_id records all_comments
  = {| requested := map rec_id records;
       comment_rows :=
         Ok (all_comments
               ++ concat (map (fun r => map (stamp (rec_id r))
                                          (answered_comments requests_get table_id r))
                            records)) |}.
Proof.
  intros Hok. revert all_comments.
  induction Hok as [|r records Hr _ IH]; intros all_comments; simpl.
  - by rewrite app_nil_r.
  - unfold answered_ok, answered_comments in *.
    destruct (requests_get table_id (rec_id r)) as [status_code body|]; [|done].
    rewrite Hr. simpl. rewrite IH. simpl. by rewrite app_assoc.
Qed.

(** X10: when every call for comments is answered with status 200,
    [get_comments] requests the comments of every record once, in order, and
    returns exactly the comments the calls answered, record after record in
    the order of the records and, for one record, in the order they were
    answered; every returned comment carries under ["record_id"] the
    identifier of the record it was requested for, also when the service had
    sent another value under that key. *)
Theorem get_comments_stamps_owner (self : GetAirTables)
    (requests_get : string -> string -> http_reply (option (list (gmap string value))))
    (table_id : string) (records : list record) :
  at_iterate self table_id = Ok records ->
  Forall (fun r => answered_ok requests_get table_id r = true) records ->
  get_comments self requests_get table_id
    = {| requested := map rec_id records;
         comment_rows :=
           Ok (concat (map (fun r => map (stamp (rec_id r))
                                       (answered_comments requests_get table_id r))
                         records)) |}
  /\ forall record_id sent,
       stamp record_id sent !! "record_id" = Some (VStr record_id)
       /\ forall key, key <> "record_id" -> stamp record_id sent !! key = sent !! key.
Proof.
  intros Hiterate Hok. split.
  - unfold get_comments. rewrite Hiterate.
    by rewrite collect_comments_all_answered.
  - intros record_id sent. unfold stamp. split; [apply lookup_insert_eq|].
    intros key Hkey. by apply lookup_insert_ne.
Qed.

(** X11: at the first record whose call is not answered with status 200
    (another status, or an exception of the transport), [get_comments]
    raises: the comments collected so far are lost and no later record is
    requested. *)
Theorem get_comments_stops_at_failure (self : GetAirTables)
    (requests_get : string -> string -> http_reply (option (list (gmap string value))))
    (table_id : string) (pre post : list record) (r : record) :
  at_iterate self table_id = Ok (pre ++ r :: post) ->
  Forall (fun p => answered_ok requests_get table_id p = true) pre ->
  answered_ok requests_get table_id r = false ->
  get_comments self requests_get table_id
  = {| requested := map rec_id pre ++ [rec_id r]; comment_rows := Raise RemoteError |}.
Proof.
  intros Hiterate Hpre Hr. unfold get_comments. rewrite Hiterate. clear Hiterate.
  generalize (@nil (gmap string value)) as all_comments.
  induction Hpre as [|p pre Hp _ IH]; intros all_comments; simpl.
  - unfold answered_ok in Hr.
    destruct (requests_get table_id (rec_id r)) as [status_code body|]; [|done].
    by rewrite Hr.
  - unfold answered_ok in Hp.
    destruct (requests_get table_id (rec_id p)) as [status_code body|]; [|done].
    rewrite Hp. simpl. rewrite IH. by simpl.
Qed.

Lemma get_comments_stamps_owner_witness :
  get_comments (paged_service 1 (fun _ => take 2 three_clients) clients_schema)
    sample_comments "tblClients"
  = {| requested := ["rec1"; "rec2"];
       comment_rows :=
         Ok [ list_to_map [("id", VStr "com1"); ("text", VStr "called");
                           ("record_id", VStr "rec1")];
              list_to_map [("id", VStr "com2"); ("record_id", VStr "rec1")] ] |}.
Proof.
  etransitivity.
  - apply (get_comments_stamps_owner
             (paged_service 1 (fun _ => take 2 three_clients) clients_schema)
             sample_comments "tblClients" (take 2 three_clients)).
    + reflexivity.
    + repeat (apply List.Forall_cons; [vm_compute; reflexivity|]). apply List.Forall_nil.
  - vm_compute. reflexivity.
Defined.

Lemma get_comments_stops_at_failure_witness :
  get_comments (paged_service 1 (fun _ => three_clients) clients_schema)
    sample_comments "tblClients"
  = {| requested := ["rec1"; "rec2"; "rec3"]; comment_rows := Raise RemoteError |}.
Proof.
  apply (get_comments_stops_at_failure
           (paged_service 1 (fun _ => three_clients) clients_schema)
           sample_comments "tblClients" (take 2 three_clients) []
           (mk_record "rec3" [("Id", VStr "X2")])).
  - reflexivity.
  - repeat (apply List.Forall_cons; [vm_compute; reflexivity|]). apply List.Forall_nil.
  - vm_compute. reflexivity.
Defined.

(** ** A table the schema does not list *)

Lemma all_columns_of_unlisted (tables : list table_schema) (table_id : string) :
  Forall (fun t => ts_id t <> table_id) tables -> all_columns_of tables table_id = [].
Proof.
  induction 1 as [|t tables Ht _ IH]; simpl; [done|].
  by destruct (String.eqb_spec (ts_id t) table_id).
Qed.

(** [get_table] on one state of a table, read as a first page and then in
    full. *)
Lemma get_table_snapshot (self : GetAirTables) (table_id : string)
    (tbl : list record) (k : nat) (tables : list table_schema) :
  NoDup (map rec_id tbl) ->
  Forall (fun r => is_Some (rec_fields r)) tbl ->
  at_get self table_id [] = Reply (take k tbl) ->
  at_iterate self table_id = Ok tbl ->
  requests_get_schema self (BASE_ID self) = Response 200 tables ->
  get_table self table_id
  = Ok (frame_reindexed (map record_fields tbl) (all_columns_of tables table_id)).
Proof.
  intros Hnodup Hfields Hget Hiterate Hschema.
  destruct (append_new_first_page tbl k Hnodup) as [Hequal _].
  unfold get_table, collect_records, get_base_schema.
  rewrite Hget, Hiterate, Hschema. py_unfold.
  destruct tbl as [|r rest] eqn:Htbl.
  - rewrite take_nil. by simpl.
  - cbn [payload]. rewrite Hequal. simpl Z.eqb. cbv iota. cbn [payload].
    by rewrite rmap_fields_item.
Qed.

(** X12: when the schema call succeeds but lists no table under the given
    id (as when a table name is passed), [get_table] still returns one row
    per record, with no column at all: every field is dropped. *)
Theorem get_table_unlisted_table (self : GetAirTables) (table_id : string)
    (tbl : list record) (k : nat) (tables : list table_schema) :
  NoDup (map rec_id tbl) ->
  Forall (fun r => is_Some (rec_fields r)) tbl ->
  at_get self table_id [] = Reply (take k tbl) ->
  at_iterate self table_id = Ok tbl ->
  requests_get_schema self (BASE_ID self) = Response 200 tables ->
  Forall (fun t => ts_id t <> table_id) tables ->
  get_table self table_id = Ok {| columns := []; rows := replicate (length tbl) [] |}.
Proof.
  intros Hnodup Hfields Hget Hiterate Hschema Hunlisted.
  rewrite (get_table_snapshot self table_id tbl k tables) by done.
  rewrite all_columns_of_unlisted by done. unfold frame_reindexed. simpl.
  do 2 f_equal. clear. induction tbl as [|r tbl IH]; simpl; [done | by rewrite IH].
Qed.

Lemma get_table_unlisted_table_witness :
  get_table (paged_service 2 (fun _ => three_clients) clients_schema) "Clients"
  = Ok {| columns := []; rows := [[]; []; []] |}.
Proof.
  apply (get_table_unlisted_table
           (paged_service 2 (fun _ => three_clients) clients_schema) "Clients"
           three_clients 2 clients_schema).
  - apply (bool_decide_unpack _). vm_compute. exact I.
  - unfold three_clients. repeat (apply List.Forall_cons; [by eexists|]).
    apply List.Forall_nil.
  - reflexivity.
  - reflexivity.
  - reflexivity.
  - repeat (apply List.Forall_cons; [discriminate|]). apply List.Forall_nil.
Defined.

(** ** Routes *)

(** X14: a request without the key, with an empty key, or with a key other
    than the secret is answered 400 or 403 by every route of the
    application, [GET /protected] and [GET /comments/{table_id}] included;
    for it the record-id, verify-and-update and comment routes make no
    remote call and print nothing, and the comments route requests no
    comments. *)
Theorem unauthenticated_requests_make_no_call (nfkc : string -> string)
    (airtables : GetAirTables)
    (requests_get : string -> string -> http_reply (option (list (gmap string value))))
    (x_api_key : option string)
    (table_id record_id comment main_table_id checking_table_id : string)
    (name_column id_column update_column : string) (query : string * string) :
  x_api_key <> Some "valid_api_key" ->
  exists status_code d,
    (status_code = 400%Z \/ status_code = 403%Z)
    /\ get_protected x_api_key = {| status := status_code; content := d |}
    /\ Routes.get_table airtables x_api_key table_id
       = Routes.HTTPError status_code (Routes.Text d)
    /\ Routes.get_record_id nfkc airtables x_api_key table_id id_column name_column query
       = Routes.Served (Routes.HTTPError status_code (Routes.Text d)) []
    /\ Routes.verify_updates airtables x_api_key table_id name_column id_column
         update_column
       = Routes.HTTPError status_code (Routes.Text d)
    /\ Routes.verify_and_update nfkc airtables x_api_key table_id name_column id_column
         update_column query
       = Routes.Served (Routes.HTTPError status_code (Routes.Text d)) []
    /\ Routes.get_comments airtables requests_get x_api_key table_id
       = Routes.ServedComments (Routes.HTTPError status_code (Routes.Text d)) []
    /\ Routes.create_comment airtables x_api_key table_id record_id comment
       = Routes.Served (Routes.HTTPError status_code (Routes.Text d)) []
    /\ Routes.get_client_database airtables x_api_key main_table_id checking_table_id
         id_column name_column
       = Routes.HTTPError status_code (Routes.Text d).
Proof.
  intros Hkey.
  unfold get_protected, serve, Routes.get_record_id, Routes.verify_and_update,
    Routes.create_comment, Routes.get_table, Routes.verify_updates,
    Routes.get_comments, Routes.get_client_database, get_api_key, api_key_header.
  destruct x_api_key as [key|].
  - destruct (String.eqb_spec key "") as [->|Hempty].
    + exists 400%Z, "X-API-Key header invalid". by repeat split; try left.
    + destruct (String.eqb_spec key "valid_api_key") as [->|Hne]; [done|]. simpl.
      exists 403%Z, "Could not validate credentials". by repeat split; try right.
  - exists 400%Z, "X-API-Key header invalid". by repeat split; try left.
Qed.

Lemma unauthenticated_requests_make_no_call_witness :
  exists status_code d,
    (status_code = 400%Z \/ status_code = 403%Z)
    /\ get_protected (Some "guessed_key") = {| status := status_code; content := d |}
    /\ Routes.get_table
         (service (fun _ => pending_clients) [] Raises ConnectionError)
         (Some "guessed_key") "clients"
       = Routes.HTTPError status_code (Routes.Text d)
    /\ Routes.get_record_id nfkc_sample
         (service (fun _ => pending_clients) [] Raises ConnectionError)
         (Some "guessed_key") "clients" "Id" "Name" ("Bob", "X1")
       = Routes.Served (Routes.HTTPError status_code (Routes.Text d)) []
    /\ Routes.verify_updates
         (service (fun _ => pending_clients) [] Raises ConnectionError)
         (Some "guessed_key") "clients" "Name" "Id" "Done"
       = Routes.HTTPError status_code (Routes.Text d)
    /\ Routes.verify_and_update nfkc_sample
         (service (fun _ => pending_clients) [] Raises ConnectionError)
         (Some "guessed_key") "clients" "Name" "Id" "Done" ("Bob", "X1")
       = Routes.Served (Routes.HTTPError status_code (Routes.Text d)) []
    /\ Routes.get_comments
         (service (fun _ => pending_clients) [] Raises ConnectionError)
         sample_comments (Some "guessed_key") "clients"
       = Routes.ServedComments (Routes.HTTPError status_code (Routes.Text d)) []
    /\ Routes.create_comment
         (service (fun _ => pending_clients) [] Raises ConnectionError)
         (Some "guessed_key") "clients" "rec2" "checked"
       = Routes.Served (Routes.HTTPError status_code (Routes.Text d)) []
    /\ Routes.get_client_database
         (service (fun _ => pending_clients) [] Raises ConnectionError)
         (Some "guessed_key") "main" "checking" "Id" "Name"
       = Routes.HTTPError status_code (Routes.Text d).
Proof.
  apply (unauthenticated_requests_make_no_call nfkc_sample
           (service (fun _ => pending_clients) [] Raises ConnectionError)
           sample_comments
           (Some "guessed_key") "clients" "rec2" "checked" "main" "checking"
           "Name" "Id" "Done" ("Bob", "X1")).
  discriminate.
Defined.

(** X15: when the service cannot be reached (every read and every post
    raises), an authenticated request is answered differently by each
    route: the table and client-database routes answer 500 with the error,
    the record-id and verify-and-update routes answer 404 as if no record
    matched, and the verify-updates and comment routes let the exception
    escape their handler. *)
Theorem remote_exception_by_route (nfkc : string -> string) (airtables : GetAirTables)
    (table_id record_id comment checking_table_id : string)
    (name_column id_column update_column : string) (query : string * string) :
  (forall fields, at_get airtables table_id fields = Raises) ->
  requests_post_comment airtables table_id record_id comment = ConnectionError ->
  let key := Some "valid_api_key" in
  Routes.get_table airtables key table_id
    = Routes.HTTPError 500 (Routes.StrOf RemoteError)
  /\ Routes.get_client_database airtables key table_id checking_table_id
       id_column name_column
     = Routes.HTTPError 500 (Routes.StrOf RemoteError)
  /\ Routes.answer (Routes.get_record_id nfkc airtables key table_id id_column
                      name_column query)
     = Routes.HTTPError 404 (Routes.Text "Record not found")
  /\ Routes.answer (Routes.verify_and_update nfkc airtables key table_id name_column
                      id_column update_column query)
     = Routes.HTTPError 404 (Routes.Text "Record not found or update failed")
  /\ Routes.verify_updates airtables key table_id name_column id_column update_column
     = Routes.Unhandled RemoteError
  /\ Routes.answer (Routes.create_comment airtables key table_id record_id comment)
     = Routes.Unhandled RemoteError.
Proof.
  intros Hget Hpost key. subst key.
  assert (get_table airtables table_id = Raise RemoteError) as Htable.
  { unfold get_table, collect_records. by rewrite Hget. }
  repeat split.
  - unfold Routes.get_table. simpl. by rewrite Htable.
  - unfold Routes.get_client_database, get_client_database. simpl. py_unfold.
    by rewrite Htable.
  - unfold Routes.get_record_id. simpl. rewrite get_record_id_unfold, Hget. done.
  - unfold Routes.verify_and_update. simpl. rewrite verify_and_update_unfold, Hget. done.
  - unfold Routes.verify_updates, verify_update_tables. simpl. by rewrite Hget.
  - unfold Routes.create_comment, create_comment. simpl. by rewrite Hpost.
Qed.

Lemma remote_exception_by_route_witness :
  Routes.get_table (unreachable_service Raises) (Some "valid_api_key") "clients"
    = Routes.HTTPError 500 (Routes.StrOf RemoteError)
  /\ Routes.get_client_database (unreachable_service Raises) (Some "valid_api_key")
       "clients" "checking" "Id" "Name"
     = Routes.HTTPError 500 (Routes.StrOf RemoteError)
  /\ Routes.answer (Routes.get_record_id nfkc_sample (unreachable_service Raises)
                      (Some "valid_api_key") "clients" "Id" "Name" ("Bob", "X1"))
     = Routes.HTTPError 404 (Routes.Text "Record not found")
  /\ Routes.answer (Routes.verify_and_update nfkc_sample (unreachable_service Raises)
                      (Some "valid_api_key") "clients" "Name" "Id" "Done" ("Bob", "X1"))
     = Routes.HTTPError 404 (Routes.Text "Record not found or update failed")
  /\ Routes.verify_updates (unreachable_service Raises) (Some "valid_api_key")
       "clients" "Name" "Id" "Done"
     = Routes.Unhandled RemoteError
  /\ Routes.answer (Routes.create_comment (unreachable_service Raises)
                      (Some "valid_api_key") "clients" "rec2" "checked")
     = Routes.Unhandled RemoteError.
Proof.
  apply (remote_exception_by_route nfkc_sample (unreachable_service Raises)
           "clients" "rec2" "checked" "checking" "Name" "Id" "Done" ("Bob", "X1")).
  - intros fields. reflexivity.
  - reflexivity.
Defined.

(** X16: the verify-and-update route answers "Updated" for a record that
    was already flagged, although nothing is written; and it answers 404
    "Record not found or update failed" when the record is found and the
    service refuses the write. *)
Theorem route_updated_without_write (nfkc : string -> string) (airtables : GetAirTables)
    (table_id name_column id_column update_column : string) (query : string * string)
    (pre post : list record) (r : record) :
  at_get airtables table_id [name_column; id_column; update_column]
    = Reply (pre ++ r :: post) ->
  Forall (fun p => passes_verifier name_column id_column p = true
                   /\ matches_exactly nfkc name_column id_column query p = false) pre ->
  matches_exactly nfkc name_column id_column query r = true ->
  let served := Routes.verify_and_update nfkc airtables (Some "valid_api_key") table_id
                  name_column id_column update_column query in
  (truthy (update_flag update_column r) = true ->
     served = Routes.Served (Routes.Answered "valid_api_key" "Updated")
                [AtGet table_id [name_column; id_column; update_column]])
  /\ (truthy (update_flag update_column r) = false ->
      accepted_reply (at_update airtables table_id (rec_id r)
                        {[ update_column := VBool true ]}) = false ->
      Routes.answer served
        = Routes.HTTPError 404 (Routes.Text "Record not found or update failed")
      /\ In (AtUpdate table_id (rec_id r) {[ update_column := VBool true ]} false)
           (Routes.calls served)).
Proof.
  intros Hget Hpre Hm served. subst served. unfold Routes.verify_and_update. simpl.
  rewrite (verify_and_update_at_first_match nfkc airtables table_id name_column id_column
             update_column query pre post r Hget Hpre).
  rewrite scan_and_update_at_match by done. split.
  - intros Hflag. by rewrite Hflag.
  - intros Hflag Hrefused. rewrite Hflag. cbv zeta.
    destruct (at_update airtables table_id (rec_id r) _) as [response_fields| |];
      [done| |]; simpl; split; auto.
Qed.

Lemma route_updated_without_write_witness :
  Routes.verify_and_update nfkc_sample
    (service (fun _ => flagged_clients) [] Raises ConnectionError)
    (Some "valid_api_key") "clients" "Name" "Id" "Done" ("Bob", "X1")
  = Routes.Served (Routes.Answered "valid_api_key" "Updated")
      [AtGet "clients" ["Name"; "Id"; "Done"]].
Proof.
  apply (proj1 (route_updated_without_write nfkc_sample
           (service (fun _ => flagged_clients) [] Raises ConnectionError)
           "clients" "Name" "Id" "Done" ("Bob", "X1")
           [mk_record "rec1" [("Name", VStr "Ann"); ("Id", VStr "X0")]] []
           (mk_record "rec2" [("Name", VStr "Bob"); ("Id", VStr "X1");
                              ("Done", VBool true)])
           eq_refl
           ltac:(forall_records)
           ltac:(vm_compute; reflexivity))).
  vm_compute. reflexivity.
Defined.

(** ** More on reconciling *)

Lemma client_frame_of (record_id : string) (id name : value) :
  frame_reindexed [record_fields (client_row_of record_id id name)] ["id"; "name"]
  = {| columns := ["id"; "name"]; rows := [[id; name]] |}.
Proof.
  unfold frame_reindexed, client_row_of, mk_record, record_fields, dict_get. simpl.
  rewrite lookup_insert_eq.
  rewrite lookup_insert_ne by done. by rewrite lookup_insert_eq.
Qed.

Lemma client_frame_two (r1 r2 id1 name1 id2 name2 : string) :
  frame_reindexed
    [record_fields (client_row r1 id1 name1); record_fields (client_row r2 id2 name2)]
    ["id"; "name"]
  = {| columns := ["id"; "name"];
       rows := [[VStr id1; VStr name1]; [VStr id2; VStr name2]] |}.
Proof.
  unfold frame_reindexed, client_row, mk_record, record_fields, dict_get. simpl.
  rewrite !lookup_insert_eq.
  rewrite !lookup_insert_ne by done. by rewrite !lookup_insert_eq.
Qed.

Ltac reconcile_tables :=
  unfold get_client_database, reconcile_service;
  rewrite !get_table_service
    by (repeat (apply List.Forall_cons; [by eexists|]); apply List.Forall_nil);
  py_unfold;
  cbn [String.eqb Ascii.eqb Bool.eqb all_columns_of reconcile_schema ts_id ts_fields map].

(** X17: list-wrapped cells are unwrapped on the checking side only.  A
    checking row whose id and name are one-element lists reconciles exactly
    like the row of the bare values; a main row whose id is a list, of any
    length, makes the method raise [TypeError], and so does a checking row
    whose id is a list of two or more elements. *)
Theorem reconcile_unwraps_checking_only (id name cid cname : string) :
  get_client_database
    (reconcile_service [client_row "rec1" id name]
       [client_row_of "rec2" (VList [VStr cid]) (VList [VStr cname])])
    "main" "checking" "id" "name"
  = get_client_database
      (reconcile_service [client_row "rec1" id name] [client_row "rec2" cid cname])
      "main" "checking" "id" "name"
  /\ (forall l,
        get_client_database
          (reconcile_service [client_row_of "rec1" (VList l) (VStr name)]
             [client_row "rec2" cid cname])
          "main" "checking" "id" "name" = Raise TypeError)
  /\ (forall x y l,
        get_client_database
          (reconcile_service [client_row "rec1" id name]
             [client_row_of "rec2" (VList (x :: y :: l)) (VStr cname)])
          "main" "checking" "id" "name" = Raise TypeError).
Proof.
  split; [|split].
  - reconcile_tables. rewrite !client_frame, client_frame_of. reflexivity.
  - intros l. reconcile_tables. rewrite client_frame, client_frame_of. reflexivity.
  - intros x y l. reconcile_tables. rewrite client_frame, client_frame_of. reflexivity.
Qed.

(** X18: when two rows of the checking table carry the id and name of a main
    row, the left join gives that main row twice: the output has more rows
    than the main table. *)
Theorem reconcile_duplicates_multiply (id name : string) :
  get_client_database
    (reconcile_service [client_row "rec1" id name]
       [client_row "rec2" id name; client_row "rec3" id name])
    "main" "checking" "id" "name"
  = Ok {| columns := ["index"; "name"; "id"];
          rows := [ [VStr ((id +:+ " | ") +:+ name); VStr name; VStr id];
                    [VStr ((id +:+ " | ") +:+ name); VStr name; VStr id] ] |}.
Proof.
  reconcile_tables. rewrite client_frame, client_frame_two. cbn.
  rewrite !String.eqb_refl. cbn.
  reconcile_step. rewrite !String.eqb_refl. cbn.
  rewrite ?String.eqb_refl. reflexivity.
Qed.








